(** * bolt-pm: the manifest command line front end (src/main.cpp)

    A shallow embedding of [initialize_manifest], [install_package],
    [build_project], [print_help] and [main], with the file system, the two
    output streams and the external compiler made explicit, followed by the
    properties of the commands. *)

From Stdlib Require Import ZArith String Ascii.
From stdpp Require Import base option list gmap strings sorting pretty.

Set Warnings "-register-all".
Local Open Scope string_scope.
Local Open Scope Z_scope.

(** ** Strings *)

(** The pieces of [s] between the occurrences of [sep]. *)
Fixpoint split_on (sep : ascii) (s : string) : list string :=
  match s with
  | EmptyString => [EmptyString]
  | String c rest =>
      if Ascii.eqb c sep then EmptyString :: split_on sep rest
      else match split_on sep rest with
           | w :: ws => String c w :: ws
           | [] => [String c EmptyString]
           end
  end.

Fixpoint all_chars (p : ascii → bool) (s : string) : bool :=
  match s with
  | EmptyString => true
  | String c rest => p c && all_chars p rest
  end.

(** No space in [s]: the shell reads it as part of one word. *)
Definition space_free (s : string) : bool :=
  all_chars (λ c, negb (Ascii.eqb c " ")) s.

(** ** TOML documents *)

(** Modelled from the spec: toml.hpp (the vendored TOML library) is not among
    the sources.  A document is a table from keys to nodes; a node is a string,
    another scalar, or a table.  The commands only ever tell strings, tables
    and "anything else" apart. *)
Inductive node : Type :=
| NString (s : string)
| NInteger (z : Z)
| NBoolean (b : bool)
| NTable (t : gmap string node).

Abbreviation table := (gmap string node).

(** [toml::node_view]: a possibly empty reference to a node. *)
Abbreviation node_view := (option node).

(** [view[key]]: indexing a view that is not a table gives the empty view. *)
Definition view_at (v : node_view) (key : string) : node_view :=
  match v with
  | Some (NTable t) => t !! key
  | _ => None
  end.

(** [view.value_or(dflt)] at type string: the string held by the node, or
    [dflt] when the view is empty or holds anything but a string. *)
Definition value_or (v : node_view) (dflt : string) : string :=
  match v with
  | Some (NString s) => s
  | _ => dflt
  end.

(** [view.as_table()]: a pointer to the table, or the null pointer. *)
Definition as_table (v : node_view) : option table :=
  match v with
  | Some (NTable t) => Some t
  | _ => None
  end.

(** [tbl.contains(key)] *)
Definition contains (tbl : table) (key : string) : bool :=
  bool_decide (is_Some (tbl !! key)).

(** A table iterates in the order of its keys (it is a [std::map]). *)
Definition key_le {A} (p q : string * A) : Prop := String.le p.1 q.1.

Global Instance key_le_dec {A} (p q : string * A) : Decision (key_le p q).
Proof. unfold key_le. apply _. Defined.

Definition table_items {A} (t : gmap string A) : list (string * A) :=
  merge_sort key_le (map_to_list t).

(** The capability the library provides to the commands: parsing the text of
    a file into a document or a parse error, and printing a document. *)
Class Toml := {
  toml_parse : string → table + string;
  toml_format : table → string
}.

(** ** The world a process runs in *)

Inductive event : Type :=
| Stdout (s : string)
| Stderr (s : string)
| FileRead (path : string)
| FileWrite (path content : string)
| Exec (cmd : string).

Record world := World {
  files : gmap string string;
  trace : list event
}.

(** [std::system]: the command line is handed to the shell, which may change
    the files and returns a status. *)
Class Shell := {
  run_command : string → gmap string string → Z * gmap string string
}.

(** A computation either returns in a new world or faults (it dereferenced
    the null pointer). *)
Inductive outcome (A : Type) : Type :=
| Returned (a : A) (w : world)
| Fault (w : world).
Global Arguments Returned {A} a w.
Global Arguments Fault {A} w.

Definition io (A : Type) : Type := world → outcome A.

Global Instance io_ret : MRet io := λ A a w, Returned a w.
Global Instance io_bind : MBind io := λ A B f m w,
  match m w with
  | Returned a w' => f a w'
  | Fault w' => Fault w'
  end.

Definition emit (e : event) : io unit :=
  λ w, Returned () (World (files w) (trace w ++ [e])).

Definition cout (s : string) : io unit := emit (Stdout s).
Definition cerr (s : string) : io unit := emit (Stderr s).

Definition fs_exists (path : string) : io bool :=
  λ w, Returned (bool_decide (is_Some (files w !! path))) w.

(** [std::ofstream f(path); f << content; f.close();] *)
Definition ofstream_write (path content : string) : io unit :=
  λ w, Returned () (World (<[path := content]> (files w))
                          (trace w ++ [FileWrite path content])).

(** [toml::parse_file(path)]; the exception is the right injection. *)
Definition parse_file `{Toml} (path : string) : io (table + string) :=
  λ w, Returned
         match files w !! path with
         | Some text => toml_parse text
         | None => inr "File could not be opened for reading"
         end
         (World (files w) (trace w ++ [FileRead path])).

Definition std_system `{Shell} (cmd : string) : io Z :=
  λ w, let '(ret, fs) := run_command cmd (files w) in
       Returned ret (World fs (trace w ++ [Exec cmd])).

Definition null_dereference {A : Type} : io A := λ w, Fault w.

(** ** Constants *)

Definition endl : string := String (ascii_of_nat 10) EmptyString.
Definition dquote : string := String (ascii_of_nat 34) EmptyString.

Definition MANIFEST_FILE : string := "bolt.toml".
Definition COMPILER_NAME : string := "bolt-compiler".

Definition default_manifest : table :=
  {[ "package" := NTable {[ "name" := NString "new-bolt-project";
                            "version" := NString "0.1.0";
                            "entrypoint" := NString "main.bolt" ]};
     "dependencies" := NTable ∅ ]}.

Definition entrypoint_stub (entrypoint : string) : string :=
  "// Main entrypoint: " +:+ entrypoint +:+ endl +:+ endl +:+
  "int main() {" +:+ endl +:+ "    " +:+ endl +:+
  "    return 0;" +:+ endl +:+ "}" +:+ endl.

(** ** The commands *)

Section commands.
Context `{Toml} `{Shell}.

Definition initialize_manifest : io unit :=
  present ← fs_exists MANIFEST_FILE;
  if present : bool then
    cout ("ℹ️ " +:+ MANIFEST_FILE +:+ " already exists." +:+ endl)
  else
    let tbl := default_manifest in
    ofstream_write MANIFEST_FILE (toml_format tbl);;
    cout ("✨ Initialized new Bolt project in " +:+ MANIFEST_FILE +:+ endl);;
    let entrypoint := "main.bolt" in
    entry_present ← fs_exists entrypoint;
    if entry_present : bool then mret ()
    else
      ofstream_write entrypoint (entrypoint_stub entrypoint);;
      cout ("✏️ Created entrypoint file: " +:+ entrypoint +:+ endl).

Definition install_package (package_name : string) : io unit :=
  present ← fs_exists MANIFEST_FILE;
  if negb present then
    cerr ("❌ No " +:+ MANIFEST_FILE +:+
          " found. Run 'bolt-pm new' first." +:+ endl)
  else
    parsed ← parse_file MANIFEST_FILE;
    match parsed with
    | inr err =>
        cerr ("❌ Error parsing " +:+ MANIFEST_FILE +:+ ":" +:+ endl +:+
              err +:+ endl)
    | inl tbl =>
        let tbl :=
          if contains tbl "dependencies" then tbl
          else <["dependencies" := NTable ∅]> tbl in
        match as_table (tbl !! "dependencies") with
        | None => null_dereference
        | Some deps =>
            let deps := <[package_name := NString "1.0.0"]> deps in
            let tbl := <["dependencies" := NTable deps]> tbl in
            ofstream_write MANIFEST_FILE (toml_format tbl);;
            cout ("✅ Added '" +:+ package_name +:+ " = " +:+ dquote +:+
                  "1.0.0" +:+ dquote +:+ "' to " +:+ MANIFEST_FILE +:+
                  "." +:+ endl);;
            cout ("Run 'bolt-pm build' to compile." +:+ endl)
        end
    end.

(** The loop over the dependencies, started on the empty string:
    [dep_flags += " -l" + key] for each entry. *)
Definition dep_flags_of (deps : table) : string :=
  foldl (λ dep_flags entry, dep_flags +:+ (" -l" +:+ entry.1))
        EmptyString (table_items deps).

Definition build_project : io unit :=
  present ← fs_exists MANIFEST_FILE;
  if negb present then
    cerr ("❌ No " +:+ MANIFEST_FILE +:+ " found. Cannot build." +:+ endl)
  else
    parsed ← parse_file MANIFEST_FILE;
    match parsed with
    | inr err =>
        cerr ("❌ Error parsing " +:+ MANIFEST_FILE +:+ ":" +:+ endl +:+
              err +:+ endl)
    | inl tbl =>
        let entrypoint := value_or (view_at (tbl !! "package") "entrypoint")
                                   "main.bolt" in
        let output_name := value_or (view_at (tbl !! "package") "name")
                                    "my-app" in
        let dep_flags :=
          match as_table (tbl !! "dependencies") with
          | Some deps => dep_flags_of deps
          | None => EmptyString
          end in
        cout ("Building project '" +:+ output_name +:+ "' from " +:+
              entrypoint +:+ "..." +:+ endl);;
        let compiler_cmd := COMPILER_NAME in
        let compiler_cmd := compiler_cmd +:+ (" " +:+ entrypoint) in
        let compiler_cmd := compiler_cmd +:+ (" -o " +:+ output_name) in
        let compiler_cmd := compiler_cmd +:+ dep_flags in
        cout ("Compiler command: " +:+ compiler_cmd +:+ endl);;
        ret ← std_system compiler_cmd;
        if decide (ret = 0) then
          cout ("✅ Build successful! (Output: " +:+ output_name +:+ ")" +:+
                endl)
        else
          cerr ("❌ Build Failed. Make sure '" +:+ COMPILER_NAME +:+
                "' is in your PATH." +:+ endl)
    end.

Definition print_help : io unit :=
  cout ("Bolt Package Manager (bolt-pm)" +:+ endl +:+ endl);;
  cout ("Usage: bolt-pm <command>" +:+ endl +:+ endl);;
  cout ("Commands:" +:+ endl);;
  cout ("  new          Initializes a new project by creating bolt.toml" +:+
        endl);;
  cout ("  install <pkg>  Adds a package to dependencies" +:+ endl);;
  cout ("  build        Compiles the project" +:+ endl);;
  cout ("  help         Show this help message" +:+ endl).

(** [argv] holds the program name first; [argc] is its length. *)
Definition main (argv : list string) : io Z :=
  let argc := length argv in
  if bool_decide (argc < 2)%nat then
    print_help;; mret 1
  else
    let command := default EmptyString (argv !! 1%nat) in
    if decide (command = "new") then
      initialize_manifest;; mret 0
    else if decide (command = "install") then
      if bool_decide (argc < 3)%nat then
        cerr ("❌ Error: 'install' requires a package name." +:+ endl);;
        mret 1
      else
        let package_name := default EmptyString (argv !! 2%nat) in
        install_package package_name;; mret 0
    else if decide (command = "build") then
      build_project;; mret 0
    else if decide (command = "help") then
      print_help;; mret 0
    else
      cerr ("❌ Unknown command: " +:+ command +:+ endl);;
      print_help;; mret 1.

(** One process: [main] started on the files [fs] with an empty trace. *)
Definition run (argv : list string) (fs : gmap string string) : outcome Z :=
  main argv (World fs []).
End commands.

(** Observations of a finished process. *)
Definition exit_status (o : outcome Z) : option Z :=
  match o with
  | Returned code _ => Some code
  | Fault _ => None
  end.

Definition final_world {A} (o : outcome A) : world :=
  match o with
  | Returned _ w => w
  | Fault w => w
  end.

Definition files_after {A} (o : outcome A) : gmap string string :=
  files (final_world o).

Definition trace_of {A} (o : outcome A) : list event :=
  trace (final_world o).

(** The command lines handed to the shell, in order. *)
Definition executed (tr : list event) : list string :=
  omap (λ e, match e with Exec cmd => Some cmd | _ => None end) tr.

(** The paths written to, in order. *)
Definition written (tr : list event) : list string :=
  omap (λ e, match e with FileWrite p _ => Some p | _ => None end) tr.

(** The paths opened, for reading or for writing. *)
Definition opened (tr : list event) : list string :=
  omap (λ e, match e with
             | FileRead p | FileWrite p _ => Some p
             | _ => None
             end) tr.

(** What went to the error stream and to the standard output. *)
Definition stderr_of (tr : list event) : list string :=
  omap (λ e, match e with Stderr s => Some s | _ => None end) tr.

Definition stdout_of (tr : list event) : list string :=
  omap (λ e, match e with Stdout s => Some s | _ => None end) tr.

(** ** A small TOML codec

    The general statements below hold for every instance of [Toml].  This
    instance stands in for toml.hpp where the commands are run on concrete
    manifests: it reads and prints [[section]] headers with dotted paths, bare
    keys, and string, integer and boolean values, one entry per line. *)

Module MiniToml.

Definition squote : ascii := ascii_of_nat 39.

Definition is_blank (c : ascii) : bool :=
  Ascii.eqb c " " || Ascii.eqb c (ascii_of_nat 9) || Ascii.eqb c (ascii_of_nat 13).

Fixpoint trim_left (s : string) : string :=
  match s with
  | String c rest => if is_blank c then trim_left rest else s
  | EmptyString => s
  end.

Definition trim (s : string) : string :=
  String.rev (trim_left (String.rev (trim_left s))).

Definition is_digit (c : ascii) : bool :=
  let n := nat_of_ascii c in bool_decide (48 ≤ n ≤ 57)%nat.

Definition is_bare_char (c : ascii) : bool :=
  let n := nat_of_ascii c in
  is_digit c || bool_decide (65 ≤ n ≤ 90)%nat || bool_decide (97 ≤ n ≤ 122)%nat
  || Ascii.eqb c "_" || Ascii.eqb c "-".

Definition is_bare_key (s : string) : bool :=
  negb (String.eqb s EmptyString) && all_chars is_bare_char s.

(** The text between a first and a last character, when they are the ones
    asked for. *)
Definition between (first last : ascii) (s : string) : option string :=
  match s with
  | String c rest =>
      if Ascii.eqb c first then
        match String.rev rest with
        | String d body => if Ascii.eqb d last then Some (String.rev body) else None
        | EmptyString => None
        end
      else None
  | EmptyString => None
  end.

Fixpoint digits_value (acc : Z) (s : string) : Z :=
  match s with
  | EmptyString => acc
  | String c rest => digits_value (10 * acc + (Z.of_nat (nat_of_ascii c) - 48)) rest
  end.

Definition parse_digits (s : string) : option Z :=
  if negb (String.eqb s EmptyString) && all_chars is_digit s
  then Some (digits_value 0 s) else None.

Definition parse_quoted (q : ascii) (s : string) : option node :=
  body ← between q q s;
  if all_chars (λ c, negb (Ascii.eqb c q)) body then Some (NString body) else None.

Definition parse_value (s : string) : option node :=
  if String.eqb s "true" then Some (NBoolean true)
  else if String.eqb s "false" then Some (NBoolean false)
  else match s with
       | String c rest =>
           if Ascii.eqb c squote || Ascii.eqb c (ascii_of_nat 34) then parse_quoted c s
           else if Ascii.eqb c "-" then NInteger ∘ Z.opp <$> parse_digits rest
           else if Ascii.eqb c "+" then NInteger <$> parse_digits rest
           else NInteger <$> parse_digits s
       | EmptyString => None
       end.

(** A change made to the table found at the end of a path of keys, the tables
    on the way being created when absent. *)
Fixpoint update_at (path : list string) (f : table → option table)
    (t : table) : option table :=
  match path with
  | [] => f t
  | k :: path' =>
      match t !! k with
      | None => u ← update_at path' f ∅; Some (<[k := NTable u]> t)
      | Some (NTable u) => u' ← update_at path' f u; Some (<[k := NTable u']> t)
      | Some _ => None
      end
  end.

Definition add_entry (key : string) (v : node) (t : table) : option table :=
  match t !! key with
  | None => Some (<[key := v]> t)
  | Some _ => None
  end.

(** The first [=] of a line separates the key from the value. *)
Fixpoint split_entry (s : string) : option (string * string) :=
  match s with
  | EmptyString => None
  | String c rest =>
      if Ascii.eqb c "=" then Some (EmptyString, rest)
      else '(k, v) ← split_entry rest; Some (String c k, v)
  end.

Definition is_comment (s : string) : bool :=
  match s with
  | String c _ => Ascii.eqb c "#"
  | EmptyString => false
  end.

(** One line, read in the section [path] of the document [doc]. *)
Definition parse_line (st : list string * table) (line : string)
    : option (list string * table) :=
  let '(path, doc) := st in
  let line := trim line in
  if String.eqb line EmptyString || is_comment line then Some st
  else match line with
       | String "[" _ =>
           name ← between "[" "]" line;
           let path := trim <$> split_on "." name in
           if forallb is_bare_key path
           then doc ← update_at path Some doc; Some (path, doc)
           else None
       | _ =>
           '(k, v) ← split_entry line;
           let key := trim k in
           if is_bare_key key
           then v ← parse_value (trim v);
                doc ← update_at path (add_entry key v) doc;
                Some (path, doc)
           else None
       end.

Fixpoint parse_lines (n : nat) (st : list string * table) (lines : list string)
    : table + string :=
  match lines with
  | [] => inl st.2
  | line :: rest =>
      match parse_line st line with
      | Some st' => parse_lines (S n) st' rest
      | None => inr ("Error while parsing line " +:+ pretty n +:+ ": " +:+ line)
      end
  end.

Definition parse (text : string) : table + string :=
  parse_lines 1 ([], ∅) (split_on (ascii_of_nat 10) text).

Definition format_scalar (v : node) : option string :=
  match v with
  | NString s => Some (String squote s +:+ String squote EmptyString)
  | NInteger z => Some (pretty z)
  | NBoolean b => Some (if b then "true" else "false")
  | NTable _ => None
  end.

Definition format_entry (entry : string * node) : string :=
  match format_scalar entry.2 with
  | Some v => entry.1 +:+ " = " +:+ v +:+ endl
  | None => EmptyString
  end.

Definition dotted (path key : string) : string :=
  if String.eqb path EmptyString then key else path +:+ "." +:+ key.

(** The section of a table: its header, its scalar entries, then the
    sections of the tables it holds. *)
Fixpoint format_section (v : node) (path : string) : string :=
  match v with
  | NTable t =>
      (if String.eqb path EmptyString then EmptyString
       else "[" +:+ path +:+ "]" +:+ endl) +:+
      String.concat EmptyString (format_entry <$> table_items t) +:+
      String.concat EmptyString
        ((λ sub, sub.2 (dotted path sub.1)) <$> table_items (format_section <$> t))
  | _ => EmptyString
  end.

Definition format (doc : table) : string :=
  format_section (NTable doc) EmptyString.

Definition mini_toml : Toml := {|
  toml_parse := parse;
  toml_format := format
|}.

End MiniToml.

(** Two shells for running [build] on concrete inputs: one in which the
    compiler is not installed (the status [std::system] reports for exit code
    127), one in which it succeeds and writes the output file named after
    [-o]. *)
Definition no_compiler : Shell := {|
  run_command := λ _ fs, (32512, fs)
|}.

Definition output_of (cmd : string) : string :=
  match split_on " " cmd with
  | _ :: _ :: _ :: name :: _ => name
  | _ => "a.out"
  end.

Definition working_compiler : Shell := {|
  run_command := λ cmd fs, (0, <[output_of cmd := "ELF"]> fs)
|}.

(** ** Names for what the commands print and compute

    The messages of the commands, and the two values the commands compute
    from a loaded document, named for the statements below. *)

Definition notice_exists : string :=
  "ℹ️ " +:+ MANIFEST_FILE +:+ " already exists." +:+ endl.

Definition error_install_no_manifest : string :=
  "❌ No " +:+ MANIFEST_FILE +:+ " found. Run 'bolt-pm new' first." +:+ endl.

Definition error_build_no_manifest : string :=
  "❌ No " +:+ MANIFEST_FILE +:+ " found. Cannot build." +:+ endl.

Definition error_parsing (err : string) : string :=
  "❌ Error parsing " +:+ MANIFEST_FILE +:+ ":" +:+ endl +:+ err +:+ endl.

Definition error_missing_name : string :=
  "❌ Error: 'install' requires a package name." +:+ endl.

Definition message_added (package_name : string) : string :=
  "✅ Added '" +:+ package_name +:+ " = " +:+ dquote +:+ "1.0.0" +:+ dquote +:+
  "' to " +:+ MANIFEST_FILE +:+ "." +:+ endl.

Definition message_building (tbl : table) : string :=
  "Building project '" +:+
  value_or (view_at (tbl !! "package") "name") "my-app" +:+ "' from " +:+
  value_or (view_at (tbl !! "package") "entrypoint") "main.bolt" +:+
  "..." +:+ endl.

Definition message_success (tbl : table) : string :=
  "✅ Build successful! (Output: " +:+
  value_or (view_at (tbl !! "package") "name") "my-app" +:+ ")" +:+ endl.

Definition message_failed : string :=
  "❌ Build Failed. Make sure '" +:+ COMPILER_NAME +:+ "' is in your PATH." +:+
  endl.

(** The document [install_package] writes back for a loaded document, if it
    gets that far: [None] stands for the null pointer [as_table] returns when
    [dependencies] is present and is not a table. *)
Definition with_dependency (package_name : string) (tbl : table)
    : option table :=
  let tbl :=
    if contains tbl "dependencies" then tbl
    else <["dependencies" := NTable ∅]> tbl in
  deps ← as_table (tbl !! "dependencies");
  Some (<["dependencies" :=
            NTable (<[package_name := NString "1.0.0"]> deps)]> tbl).

(** The command line [build_project] constructs for a loaded document. *)
Definition compiler_cmd (tbl : table) : string :=
  let entrypoint := value_or (view_at (tbl !! "package") "entrypoint")
                             "main.bolt" in
  let output_name := value_or (view_at (tbl !! "package") "name")
                              "my-app" in
  let dep_flags :=
    match as_table (tbl !! "dependencies") with
    | Some deps => dep_flags_of deps
    | None => EmptyString
    end in
  ((COMPILER_NAME +:+ (" " +:+ entrypoint)) +:+ (" -o " +:+ output_name))
  +:+ dep_flags.

(** [needle] occurs in [s]. *)
Definition occurs_in (needle s : string) : Prop :=
  ∃ before after, s = before +:+ needle +:+ after.

(** ** Concrete manifests *)

Definition sample_manifest : string :=
  "[package]" +:+ endl +:+
  "name = 'app'" +:+ endl +:+
  "entrypoint = 'app.bolt'" +:+ endl +:+
  "[dependencies]" +:+ endl +:+
  "fmt = '1.0.0'" +:+ endl +:+
  "zlib = '1.0.0'" +:+ endl.

Definition sample_document : table :=
  {[ "package" := NTable {[ "name" := NString "app";
                            "entrypoint" := NString "app.bolt" ]};
     "dependencies" := NTable {[ "fmt" := NString "1.0.0";
                                 "zlib" := NString "1.0.0" ]} ]}.

(** A header that is never closed: not valid TOML. *)
Definition broken_manifest : string := "[package" +:+ endl.

(** Valid TOML in which [dependencies] is an integer. *)
Definition scalar_dependencies_manifest : string :=
  "dependencies = 1" +:+ endl.


(** Valid TOML with no entry at all. *)
Definition empty_manifest : string := "# nothing yet" +:+ endl.

(** ** The usage text and the usage errors *)

(** What [print_help] sends to the standard output, one entry per
    statement. *)
Definition help_lines : list string :=
  [ "Bolt Package Manager (bolt-pm)" +:+ endl +:+ endl;
    "Usage: bolt-pm <command>" +:+ endl +:+ endl;
    "Commands:" +:+ endl;
    "  new          Initializes a new project by creating bolt.toml" +:+ endl;
    "  install <pkg>  Adds a package to dependencies" +:+ endl;
    "  build        Compiles the project" +:+ endl;
    "  help         Show this help message" +:+ endl ].

Definition error_unknown_command (command : string) : string :=
  "❌ Unknown command: " +:+ command +:+ endl.

(** The command lines [main] itself rejects: no command, [install] without a
    package name, or a command that is none of the four. *)
Definition usage_error (argv : list string) : bool :=
  match argv !! 1%nat with
  | None => true
  | Some command =>
      if decide (command = "install") then bool_decide (argv !! 2%nat = None)
      else bool_decide (command ∉ ["new"; "build"; "help"])
  end.

(** The files after the command lines [cmds] were run in turn by the
    shell. *)
Definition shell_effect `{Shell} (cmds : list string)
    (fs : gmap string string) : gmap string string :=
  foldl (λ fs cmd, (run_command cmd fs).2) fs cmds.

(** * Properties *)

(** ** Running the primitives *)

Section properties.
Context `{Toml} `{Shell}.

Lemma bind_returned {A B} (m : io A) (f : A → io B) w a w' :
  m w = Returned a w' → (m ≫= f) w = f a w'.
Proof. unfold mbind, io_bind. by intros ->. Qed.

Lemma exists_present fs tr text :
  fs !! MANIFEST_FILE = Some text →
  fs_exists MANIFEST_FILE (World fs tr) = Returned true (World fs tr).
Proof.
  intros Hm. unfold fs_exists. cbn [files]. rewrite Hm.
  by rewrite bool_decide_eq_true_2.
Qed.

Lemma exists_absent path fs tr :
  fs !! path = None →
  fs_exists path (World fs tr) = Returned false (World fs tr).
Proof.
  intros Hm. unfold fs_exists. cbn [files]. rewrite Hm.
  rewrite bool_decide_eq_false_2; [done|]. by intros [? ?].
Qed.

Lemma main_new prog rest w :
  main (prog :: "new" :: rest) w = (initialize_manifest;; mret 0) w.
Proof. reflexivity. Qed.

Lemma main_install prog package_name rest w :
  main (prog :: "install" :: package_name :: rest) w
  = (install_package package_name;; mret 0) w.
Proof. reflexivity. Qed.

Lemma main_build prog rest w :
  main (prog :: "build" :: rest) w = (build_project;; mret 0) w.
Proof. reflexivity. Qed.

(** ** The branches of [initialize_manifest] *)

Lemma initialize_manifest_present fs tr text :
  fs !! MANIFEST_FILE = Some text →
  initialize_manifest (World fs tr)
  = Returned () (World fs (tr ++ [Stdout notice_exists])).
Proof.
  intros Hm. unfold initialize_manifest.
  by rewrite (bind_returned _ _ _ _ _ (exists_present _ _ _ Hm)).
Qed.

Lemma initialize_manifest_fresh fs tr :
  fs !! MANIFEST_FILE = None →
  initialize_manifest (World fs tr)
  = let text := toml_format default_manifest in
    let fs1 := <[MANIFEST_FILE := text]> fs in
    let tr1 := (tr ++ [FileWrite MANIFEST_FILE text;
                       Stdout ("✨ Initialized new Bolt project in " +:+
                               MANIFEST_FILE +:+ endl)])%list in
    match fs !! "main.bolt" with
    | Some _ => Returned () (World fs1 tr1)
    | None =>
        Returned ()
          (World (<["main.bolt" := entrypoint_stub "main.bolt"]> fs1)
                 (tr1 ++ [FileWrite "main.bolt" (entrypoint_stub "main.bolt");
                          Stdout ("✏️ Created entrypoint file: " +:+
                                  "main.bolt" +:+ endl)]))
    end.
Proof.
  intros Hm. unfold initialize_manifest.
  rewrite (bind_returned _ _ _ _ _ (exists_absent _ _ _ Hm)).
  cbn zeta.
  unfold mbind, io_bind, ofstream_write, cout, emit, fs_exists. cbn [files trace].
  rewrite lookup_insert_ne by done.
  rewrite <- !app_assoc. cbn [app].
  destruct (fs !! "main.bolt") as [stub|] eqn:Hentry.
  - rewrite bool_decide_eq_true_2 by eauto. reflexivity.
  - rewrite bool_decide_eq_false_2 by (by intros [? ?]).
    cbn [files trace]. rewrite <- !app_assoc. reflexivity.
Qed.

(** ** The branches of [install_package] *)

Lemma parse_file_present fs tr text :
  fs !! MANIFEST_FILE = Some text →
  parse_file MANIFEST_FILE (World fs tr)
  = Returned (toml_parse text) (World fs (tr ++ [FileRead MANIFEST_FILE])).
Proof. intros Hm. unfold parse_file. cbn [files trace]. by rewrite Hm. Qed.

Lemma install_package_absent package_name fs tr :
  fs !! MANIFEST_FILE = None →
  install_package package_name (World fs tr)
  = Returned () (World fs (tr ++ [Stderr error_install_no_manifest])).
Proof.
  intros Hm. unfold install_package.
  by rewrite (bind_returned _ _ _ _ _ (exists_absent _ _ _ Hm)).
Qed.

Lemma install_package_unparsable package_name fs tr text err :
  fs !! MANIFEST_FILE = Some text →
  toml_parse text = inr err →
  install_package package_name (World fs tr)
  = Returned () (World fs (tr ++ [FileRead MANIFEST_FILE;
                                  Stderr (error_parsing err)])).
Proof.
  intros Hm Hp. unfold install_package.
  rewrite (bind_returned _ _ _ _ _ (exists_present _ _ _ Hm)). cbn [negb].
  rewrite (bind_returned _ _ _ _ _ (parse_file_present _ _ _ Hm)), Hp.
  unfold cerr, emit. cbn [files trace]. by rewrite <- app_assoc.
Qed.

Lemma install_package_parsed package_name fs tr text tbl :
  fs !! MANIFEST_FILE = Some text →
  toml_parse text = inl tbl →
  install_package package_name (World fs tr)
  = match with_dependency package_name tbl with
    | None => Fault (World fs (tr ++ [FileRead MANIFEST_FILE]))
    | Some tbl' =>
        Returned ()
          (World (<[MANIFEST_FILE := toml_format tbl']> fs)
                 (tr ++ [FileRead MANIFEST_FILE;
                         FileWrite MANIFEST_FILE (toml_format tbl');
                         Stdout (message_added package_name);
                         Stdout ("Run 'bolt-pm build' to compile." +:+ endl)]))
    end.
Proof.
  intros Hm Hp. unfold install_package.
  rewrite (bind_returned _ _ _ _ _ (exists_present _ _ _ Hm)). cbn [negb].
  rewrite (bind_returned _ _ _ _ _ (parse_file_present _ _ _ Hm)), Hp.
  unfold with_dependency. cbn zeta.
  destruct (as_table _) as [deps|]; [|done].
  cbn [mbind option_bind].
  unfold mbind, io_bind, ofstream_write, cout, emit. cbn [files trace].
  by rewrite <- !app_assoc.
Qed.

(** ** The branches of [build_project] *)

Lemma build_project_absent fs tr :
  fs !! MANIFEST_FILE = None →
  build_project (World fs tr)
  = Returned () (World fs (tr ++ [Stderr error_build_no_manifest])).
Proof.
  intros Hm. unfold build_project.
  by rewrite (bind_returned _ _ _ _ _ (exists_absent _ _ _ Hm)).
Qed.

Lemma build_project_unparsable fs tr text err :
  fs !! MANIFEST_FILE = Some text →
  toml_parse text = inr err →
  build_project (World fs tr)
  = Returned () (World fs (tr ++ [FileRead MANIFEST_FILE;
                                  Stderr (error_parsing err)])).
Proof.
  intros Hm Hp. unfold build_project.
  rewrite (bind_returned _ _ _ _ _ (exists_present _ _ _ Hm)). cbn [negb].
  rewrite (bind_returned _ _ _ _ _ (parse_file_present _ _ _ Hm)), Hp.
  unfold cerr, emit. cbn [files trace]. by rewrite <- app_assoc.
Qed.

Lemma build_project_parsed fs tr text tbl :
  fs !! MANIFEST_FILE = Some text →
  toml_parse text = inl tbl →
  build_project (World fs tr)
  = let cmd := compiler_cmd tbl in
    let ret := (run_command cmd fs).1 in
    Returned ()
      (World (run_command cmd fs).2
             (tr ++ [FileRead MANIFEST_FILE;
                     Stdout (message_building tbl);
                     Stdout ("Compiler command: " +:+ cmd +:+ endl);
                     Exec cmd;
                     if decide (ret = 0) then Stdout (message_success tbl)
                     else Stderr message_failed])).
Proof.
  intros Hm Hp. unfold build_project.
  rewrite (bind_returned _ _ _ _ _ (exists_present _ _ _ Hm)). cbn [negb].
  rewrite (bind_returned _ _ _ _ _ (parse_file_present _ _ _ Hm)), Hp.
  unfold compiler_cmd, message_building, message_success, message_failed.
  cbn zeta.
  unfold mbind, io_bind, std_system, cout, cerr, emit. cbn [files trace].
  destruct (run_command _ fs) as [ret fs'].
  cbn [fst snd files trace].
  destruct (decide (ret = 0)); cbn [files trace]; by rewrite <- !app_assoc.
Qed.

(** ** Exit statuses and effects of whole processes *)

Lemma then_return {A} (m : io unit) (a : A) w w' :
  m w = Returned () w' → (m;; mret a) w = Returned a w'.
Proof. intros Hm. by rewrite (bind_returned _ _ _ _ _ Hm). Qed.

Lemma then_fault {A} (m : io unit) (a : A) w w' :
  m w = Fault w' → (m;; mret a) w = Fault w'.
Proof. unfold mbind, io_bind. by intros ->. Qed.

(** C4: [install] without a package name ([argc < 3]) prints an error to the
    error stream and exits with status 1; no file is opened, for reading or
    for writing, and the files are what they were. *)
Theorem install_requires_package_name argv fs :
  argv !! 1%nat = Some "install" →
  (length argv < 3)%nat →
  let o := run argv fs in
  exit_status o = Some 1
  ∧ trace_of o = [Stderr error_missing_name]
  ∧ opened (trace_of o) = []
  ∧ files_after o = fs.
Proof.
  intros Hcmd Hlen.
  destruct argv as [|prog [|command [|? ?]]]; simplify_eq/=; [|lia].
  done.
Qed.

(** C5: when the manifest exists, [new] leaves its content as it was, does
    not write to it, prints the notice on the standard output and exits with
    status 0. *)
Theorem new_keeps_existing_manifest prog rest fs text :
  fs !! MANIFEST_FILE = Some text →
  let o := run (prog :: "new" :: rest) fs in
  files_after o !! MANIFEST_FILE = Some text
  ∧ (MANIFEST_FILE ∉ written (trace_of o))
  ∧ stdout_of (trace_of o) = [notice_exists]
  ∧ exit_status o = Some 0.
Proof.
  intros Hm o. subst o. unfold run. rewrite main_new.
  rewrite (then_return _ _ _ _ (initialize_manifest_present _ _ _ Hm)).
  cbn. split_and!; [done|apply not_elem_of_nil|done|done].
Qed.

(** C10: when the manifest exists, [initialize_manifest] returns after its
    notice having created or written no file at all; in particular an absent
    entrypoint file stays absent.  The stub is only ever written by a run
    that found no manifest. *)
Theorem new_on_existing_manifest_creates_nothing fs tr :
  is_Some (fs !! MANIFEST_FILE) →
  let o := initialize_manifest (World fs tr) in
  o = Returned () (World fs (tr ++ [Stdout notice_exists]))
  ∧ files_after o = fs
  ∧ written (trace_of o) = written tr
  ∧ (fs !! "main.bolt" = None → files_after o !! "main.bolt" = None)
  ∧ (∀ fs' : gmap string string,
       "main.bolt" ∈ written (trace_of (initialize_manifest (World fs' []))) →
       fs' !! MANIFEST_FILE = None).
Proof.
  intros [text Hm] o. subst o.
  rewrite (initialize_manifest_present _ _ _ Hm). cbn.
  split_and!; [done|done| |done|].
  - unfold written. by rewrite omap_app, app_nil_r.
  - intros fs'. destruct (fs' !! MANIFEST_FILE) as [text'|] eqn:Hm'; [|done].
    rewrite (initialize_manifest_present _ _ _ Hm'). cbn.
    by intros ?%elem_of_nil.
Qed.

(** ** The dependency flags *)

Lemma string_app_nil_r (s : string) : s +:+ EmptyString = s.
Proof.
  induction s as [|c s IH]; [done|].
  change (String c (s +:+ EmptyString) = String c s). by rewrite IH.
Qed.

Lemma string_app_assoc (s1 s2 s3 : string) :
  (s1 +:+ s2) +:+ s3 = s1 +:+ (s2 +:+ s3).
Proof.
  induction s1 as [|c s1 IH]; [done|].
  change (String c ((s1 +:+ s2) +:+ s3) = String c (s1 +:+ (s2 +:+ s3))).
  by rewrite IH.
Qed.

Lemma foldl_append {A} (f : A → string) (l : list A) (acc : string) :
  foldl (λ acc x, acc +:+ f x) acc l
  = acc +:+ String.concat EmptyString (f <$> l).
Proof.
  revert acc. induction l as [|x l IH]; intros acc; cbn [foldl fmap list_fmap].
  - by rewrite string_app_nil_r.
  - rewrite IH, string_app_assoc. f_equal.
    destruct l; [by rewrite string_app_nil_r|done].
Qed.

Lemma concat_occurs (f : string) (l : list string) :
  f ∈ l → occurs_in f (String.concat EmptyString l).
Proof.
  induction 1 as [f l|f g l Hin IH].
  - destruct l as [|g l].
    + exists EmptyString, EmptyString. by rewrite string_app_nil_r.
    + by exists EmptyString, (String.concat EmptyString (g :: l)).
  - destruct IH as (before & after & Heq).
    destruct l as [|h l]; [by apply elem_of_nil in Hin|].
    exists (g +:+ before), after.
    change (String.concat EmptyString (g :: h :: l))
      with (g +:+ String.concat EmptyString (h :: l)).
    by rewrite Heq, string_app_assoc.
Qed.

Lemma occurs_in_app_r (f s1 s2 : string) :
  occurs_in f s2 → occurs_in f (s1 +:+ s2).
Proof.
  intros (before & after & ->). exists (s1 +:+ before), after.
  by rewrite string_app_assoc.
Qed.

Lemma occurs_in_drop (c : ascii) (f s : string) :
  occurs_in (String c f) s → occurs_in f s.
Proof.
  intros (before & after & ->).
  exists (before +:+ String c EmptyString), after.
  by rewrite string_app_assoc.
Qed.

Lemma table_items_keys (deps : table) (key : string) :
  key ∈ (table_items deps).*1 ↔ is_Some (deps !! key).
Proof.
  unfold table_items. rewrite merge_sort_Permutation.
  rewrite list_elem_of_fmap. split.
  - intros ([k v] & -> & Hin). apply elem_of_map_to_list in Hin. eauto.
  - intros [v Hv]. exists (key, v). split; [done|].
    by apply elem_of_map_to_list.
Qed.

Lemma table_items_sorted (deps : table) : Sorted key_le (table_items deps).
Proof.
  assert (Total (@key_le node)) by (intros p q; apply (total String.le)).
  apply (Sorted_merge_sort key_le).
Qed.

Lemma table_items_NoDup (deps : table) : NoDup (table_items deps).*1.
Proof.
  unfold table_items. rewrite merge_sort_Permutation.
  apply NoDup_fst_map_to_list.
Qed.

Lemma dep_flags_of_concat (deps : table) :
  dep_flags_of deps
  = String.concat EmptyString
      ((λ key, " -l" +:+ key) <$> (table_items deps).*1).
Proof.
  unfold dep_flags_of.
  rewrite (foldl_append (λ entry, " -l" +:+ entry.1)).
  by rewrite <- list_fmap_compose.
Qed.

(** ** The words of the command line *)

Lemma string_app_cons (c : ascii) (s1 s2 : string) :
  String c s1 +:+ s2 = String c (s1 +:+ s2).
Proof. reflexivity. Qed.

Lemma split_on_cons (sep : ascii) (s : string) :
  ∃ w ws, split_on sep s = w :: ws.
Proof.
  destruct s as [|d s]; cbn; [by eauto|].
  destruct (Ascii.eqb d sep); [by eauto|].
  destruct (split_on sep s); eauto.
Qed.

Lemma split_on_app (sep : ascii) (s1 s2 : string) :
  split_on sep (s1 +:+ String sep s2)
  = (split_on sep s1 ++ split_on sep s2)%list.
Proof.
  induction s1 as [|c s1 IH].
  - change (EmptyString +:+ String sep s2) with (String sep s2).
    cbn. by rewrite Ascii.eqb_refl.
  - rewrite string_app_cons. cbn [split_on].
    destruct (Ascii.eqb c sep); [by rewrite IH|].
    rewrite IH. by destruct (split_on_cons sep s1) as (w & ws & ->).
Qed.

Lemma split_on_free (sep : ascii) (w : string) :
  all_chars (λ c, negb (Ascii.eqb c sep)) w = true → split_on sep w = [w].
Proof.
  induction w as [|c w IH]; [done|]. cbn.
  intros [Hc Hw]%andb_true_iff. apply negb_true_iff in Hc.
  by rewrite Hc, (IH Hw).
Qed.

Lemma split_on_flags (w : string) (keys : list string) :
  space_free w = true →
  Forall (λ key, space_free key = true) keys →
  split_on " " (w +:+ String.concat EmptyString
                        ((λ key, " -l" +:+ key) <$> keys))
  = w :: ((λ key, "-l" +:+ key) <$> keys).
Proof.
  intros Hw Hkeys. revert w Hw.
  induction Hkeys as [|key keys Hkey _ IH]; intros w Hw.
  - cbn. rewrite string_app_nil_r. by apply split_on_free.
  - assert (String.concat EmptyString ((λ key, " -l" +:+ key) <$> key :: keys)
            = String " " (("-l" +:+ key) +:+
                String.concat EmptyString ((λ key, " -l" +:+ key) <$> keys)))
      as -> by (by destruct keys; rewrite ?string_app_nil_r).
    rewrite split_on_app, (split_on_free _ w Hw), IH; done.
Qed.

(** With an entrypoint, an output name and keys free of spaces, the words of
    the command line are the compiler, the entrypoint, [-o], the output name
    and then [-l<key>] for the keys of [dependencies] in order. *)
Lemma compiler_cmd_words (tbl deps : table) :
  tbl !! "dependencies" = Some (NTable deps) →
  let entrypoint :=
    value_or (view_at (tbl !! "package") "entrypoint") "main.bolt" in
  let output_name := value_or (view_at (tbl !! "package") "name") "my-app" in
  space_free entrypoint = true →
  space_free output_name = true →
  (∀ key, is_Some (deps !! key) → space_free key = true) →
  split_on " " (compiler_cmd tbl)
  = COMPILER_NAME :: entrypoint :: "-o" :: output_name ::
      ((λ key, "-l" +:+ key) <$> (table_items deps).*1).
Proof.
  intros Hdeps entrypoint output_name Hentry Hout Hkeys.
  unfold compiler_cmd. cbn zeta. rewrite Hdeps. cbn [as_table].
  fold entrypoint output_name. rewrite dep_flags_of_concat.
  rewrite !string_app_assoc.
  change (" " +:+ ?s) with (String " " s).
  change (" -o " +:+ ?s) with (String " " ("-o" +:+ String " " s)).
  rewrite split_on_app, (split_on_free _ COMPILER_NAME) by done.
  rewrite split_on_app, (split_on_free _ entrypoint) by done.
  rewrite split_on_app, (split_on_free _ "-o") by done.
  rewrite split_on_flags; [done|done|].
  apply Forall_forall. intros key Hkey. by apply Hkeys, table_items_keys.
Qed.


(** The flags [build] appends: for a manifest that parses and whose
    [dependencies] is a table, the command line handed to the shell is the
    compiler name, the entrypoint and the output flag followed by the
    dependency flags, which are [ -l<key>], once for each key of the table
    and for nothing else; in particular [-l<key>] occurs in the command line
    for every key.  This says nothing of what the entrypoint and the output
    name themselves bring into the command line. *)
Theorem build_command_dependency_flags prog rest fs text tbl deps :
  fs !! MANIFEST_FILE = Some text →
  toml_parse text = inl tbl →
  tbl !! "dependencies" = Some (NTable deps) →
  ∃ (cmd : string) (flags : list string),
    executed (trace_of (run (prog :: "build" :: rest) fs)) = [cmd]
    ∧ cmd = ((COMPILER_NAME +:+
              (" " +:+ value_or (view_at (tbl !! "package") "entrypoint")
                                "main.bolt")) +:+
             (" -o " +:+ value_or (view_at (tbl !! "package") "name")
                                  "my-app")) +:+
            String.concat EmptyString flags
    ∧ NoDup flags
    ∧ (∀ f, f ∈ flags → ∃ name, f = " -l" +:+ name)
    ∧ (∀ name, " -l" +:+ name ∈ flags ↔ is_Some (deps !! name))
    ∧ (∀ key, is_Some (deps !! key) → occurs_in ("-l" +:+ key) cmd).
Proof.
  intros Hm Hp Hdeps.
  set (flags := (λ key, " -l" +:+ key) <$> (table_items deps).*1).
  assert (Hflags : ∀ name, " -l" +:+ name ∈ flags ↔ is_Some (deps !! name)).
  { intros name. unfold flags.
    rewrite (list_elem_of_fmap_inj (String.app " -l")).
    apply table_items_keys. }
  exists (compiler_cmd tbl), flags. split_and!.
  - unfold run. rewrite main_build.
    rewrite (then_return _ _ _ _ (build_project_parsed _ _ _ _ Hm Hp)).
    cbn. by destruct (decide _).
  - unfold compiler_cmd. cbn zeta. rewrite Hdeps. cbn [as_table].
    by rewrite dep_flags_of_concat.
  - apply (NoDup_fmap_2 (String.app " -l")), table_items_NoDup.
  - intros f (key & -> & _)%list_elem_of_fmap. by exists key.
  - done.
  - intros key Hkey. unfold compiler_cmd. cbn zeta. rewrite Hdeps.
    cbn [as_table]. rewrite dep_flags_of_concat. fold flags.
    apply occurs_in_app_r, (occurs_in_drop " "), concat_occurs.
    by apply Hflags.
Qed.


(** C9: the document [new] writes is what [install] and [build] load from
    the manifest afterwards, with the three package strings as written,
    provided the TOML library reads back the default document it printed:
    [build] then resolves the entrypoint [main.bolt] and the output name
    [new-bolt-project], and [install] writes the same package back. *)
Theorem new_then_load_round_trip prog rest fs :
  toml_parse (toml_format default_manifest) = inl default_manifest →
  fs !! MANIFEST_FILE = None →
  let fs1 := files_after (run (prog :: "new" :: rest) fs) in
  ∃ tbl,
    parse_file MANIFEST_FILE (World fs1 [])
    = Returned (inl tbl) (World fs1 [FileRead MANIFEST_FILE])
    ∧ view_at (tbl !! "package") "name" = Some (NString "new-bolt-project")
    ∧ view_at (tbl !! "package") "version" = Some (NString "0.1.0")
    ∧ view_at (tbl !! "package") "entrypoint" = Some (NString "main.bolt")
    ∧ tbl !! "dependencies" = Some (NTable ∅)
    ∧ executed (trace_of (run (prog :: "build" :: rest) fs1))
      = ["bolt-compiler main.bolt -o new-bolt-project"]
    ∧ Stdout ("Building project 'new-bolt-project' from main.bolt..." +:+ endl)
      ∈ trace_of (run (prog :: "build" :: rest) fs1)
    ∧ ∀ package_name,
        files_after (run (prog :: "install" :: package_name :: rest) fs1)
          !! MANIFEST_FILE
        = Some (toml_format
                  (<["dependencies" :=
                       NTable {[ package_name := NString "1.0.0" ]}]>
                     default_manifest)).
Proof.
  intros Hround Hm fs1.
  assert (Hm1 : fs1 !! MANIFEST_FILE = Some (toml_format default_manifest)).
  { subst fs1. unfold run. rewrite main_new.
    pose proof (initialize_manifest_fresh fs [] Hm) as Hnew. cbn zeta in Hnew.
    destruct (fs !! "main.bolt");
      rewrite (then_return _ _ _ _ Hnew); cbn.
    - by rewrite lookup_insert_eq.
    - rewrite lookup_insert_ne by done. by rewrite lookup_insert_eq. }
  clearbody fs1. exists default_manifest. split_and!; try done.
  - by rewrite (parse_file_present _ _ _ Hm1), Hround.
  - unfold run. rewrite main_build.
    rewrite (then_return _ _ _ _ (build_project_parsed _ _ _ _ Hm1 Hround)).
    cbn. by destruct (decide _).
  - unfold run. rewrite main_build.
    rewrite (then_return _ _ _ _ (build_project_parsed _ _ _ _ Hm1 Hround)).
    cbn. apply list_elem_of_In. right. by left.
  - intros package_name. unfold run. rewrite main_install.
    pose proof (install_package_parsed package_name _ [] _ _ Hm1 Hround)
      as Hinst.
    change (with_dependency package_name default_manifest)
      with (Some (<["dependencies" :=
                      NTable (<[package_name := NString "1.0.0"]> ∅)]>
                    default_manifest)) in Hinst.
    rewrite (then_return _ _ _ _ Hinst). cbn.
    rewrite lookup_insert_eq. by rewrite insert_empty.
Qed.

(** C1 (amended): every [build] exits with status 0.  With a manifest that
    parses, the compiler is run once and its status only selects the last
    message: the success notice on the standard output when it is 0, the
    failure message on the error stream otherwise.  With a missing or
    unparsable manifest an error goes to the error stream and no compiler is
    run. *)
Theorem build_exit_status prog rest fs :
  let o := run (prog :: "build" :: rest) fs in
  exit_status o = Some 0
  ∧ match fs !! MANIFEST_FILE with
    | None =>
        executed (trace_of o) = []
        ∧ stderr_of (trace_of o) = [error_build_no_manifest]
    | Some text =>
        match toml_parse text with
        | inr err =>
            executed (trace_of o) = []
            ∧ stderr_of (trace_of o) = [error_parsing err]
        | inl tbl =>
            executed (trace_of o) = [compiler_cmd tbl]
            ∧ if decide ((run_command (compiler_cmd tbl) fs).1 = 0)
              then stderr_of (trace_of o) = []
                   ∧ last (stdout_of (trace_of o)) = Some (message_success tbl)
              else stderr_of (trace_of o) = [message_failed]
        end
    end.
Proof.
  intros o. subst o. unfold run. rewrite main_build.
  destruct (fs !! MANIFEST_FILE) as [text|] eqn:Hm.
  - destruct (toml_parse text) as [tbl|err] eqn:Hp.
    + rewrite (then_return _ _ _ _ (build_project_parsed _ _ _ _ Hm Hp)).
      cbn. by destruct (decide _).
    + by rewrite (then_return _ _ _ _ (build_project_unparsable _ _ _ _ Hm Hp)).
  - by rewrite (then_return _ _ _ _ (build_project_absent _ _ Hm)).
Qed.

(** C2 (amended): [install <pkg>] without a manifest prints an error on the
    error stream, writes no file and leaves the files as they were; the
    process exits with status 0. *)
Theorem install_without_manifest prog package_name rest fs :
  fs !! MANIFEST_FILE = None →
  let o := run (prog :: "install" :: package_name :: rest) fs in
  exit_status o = Some 0
  ∧ trace_of o = [Stderr error_install_no_manifest]
  ∧ written (trace_of o) = []
  ∧ files_after o = fs.
Proof.
  intros Hm o. subst o. unfold run. rewrite main_install.
  by rewrite (then_return _ _ _ _ (install_package_absent _ _ _ Hm)).
Qed.

(** C3 (amended): [install <pkg>] on a manifest that is not valid TOML prints
    the parse error on the error stream and does not write the manifest, whose
    content stays what it was; the process exits with status 0. *)
Theorem install_unparsable_manifest prog package_name rest fs text err :
  fs !! MANIFEST_FILE = Some text →
  toml_parse text = inr err →
  let o := run (prog :: "install" :: package_name :: rest) fs in
  exit_status o = Some 0
  ∧ stderr_of (trace_of o) = [error_parsing err]
  ∧ written (trace_of o) = []
  ∧ files_after o = fs
  ∧ files_after o !! MANIFEST_FILE = Some text.
Proof.
  intros Hm Hp o. subst o. unfold run. rewrite main_install.
  by rewrite (then_return _ _ _ _ (install_package_unparsable _ _ _ _ _ Hm Hp)).
Qed.

(** ** What [install] does to the dependencies *)

(** With [dependencies] absent or a table, the document written back maps the
    package to ["1.0.0"] in [dependencies] and keeps everything else. *)
Lemma with_dependency_table package_name tbl :
  tbl !! "dependencies" = None ∨ is_Some (as_table (tbl !! "dependencies")) →
  ∃ tbl' deps',
    with_dependency package_name tbl = Some tbl'
    ∧ tbl' !! "dependencies" = Some (NTable deps')
    ∧ deps' !! package_name = Some (NString "1.0.0")
    ∧ (∀ other, other ≠ package_name →
         deps' !! other = view_at (tbl !! "dependencies") other)
    ∧ (∀ key, key ≠ "dependencies" → tbl' !! key = tbl !! key).
Proof.
  unfold with_dependency, contains. intros [Hnone|[deps Hdeps]].
  - rewrite Hnone. rewrite bool_decide_eq_false_2 by (by intros [? ?]).
    rewrite lookup_insert_eq. cbn.
    eexists _, _. split_and!; [done|apply lookup_insert_eq|apply lookup_insert_eq| |].
    + intros other Hne. by rewrite lookup_insert_ne, lookup_empty.
    + intros key Hne. by rewrite !lookup_insert_ne.
  - destruct (tbl !! "dependencies") as [[| | |deps0]|] eqn:Htbl;
      simplify_eq/=.
    rewrite Htbl. cbn.
    eexists _, _. split_and!; [done|apply lookup_insert_eq|apply lookup_insert_eq| |].
    + intros other Hne. by rewrite lookup_insert_ne.
    + intros key Hne. by rewrite lookup_insert_ne.
Qed.

(** Installing the same package into the document just written changes
    nothing. *)
Lemma with_dependency_idempotent package_name tbl tbl' :
  with_dependency package_name tbl = Some tbl' →
  with_dependency package_name tbl' = Some tbl'.
Proof.
  unfold with_dependency, contains. intros Hw.
  destruct (as_table _) as [deps|] eqn:Hdeps in Hw; simplify_eq/=.
  rewrite bool_decide_eq_true_2 by (rewrite lookup_insert_eq; eauto).
  rewrite lookup_insert_eq. cbn.
  by rewrite !insert_insert_eq.
Qed.

(** On a manifest that parses with [dependencies] absent or a table,
    [install <pkg>] exits with status 0 and writes the document of
    [with_dependency]; a second [install <pkg>], on a library that reads
    that document back, writes the very same manifest. *)
Lemma install_adds_dependency prog package_name rest fs text tbl tbl' :
  fs !! MANIFEST_FILE = Some text →
  toml_parse text = inl tbl →
  with_dependency package_name tbl = Some tbl' →
  let o := run (prog :: "install" :: package_name :: rest) fs in
  exit_status o = Some 0
  ∧ files_after o = <[MANIFEST_FILE := toml_format tbl']> fs
  ∧ (toml_parse (toml_format tbl') = inl tbl' →
     files_after (run (prog :: "install" :: package_name :: rest)
                      (files_after o))
     = files_after o).
Proof.
  intros Hm Hp Hw o.
  assert (Ho : o = Returned 0
                 (World (<[MANIFEST_FILE := toml_format tbl']> fs)
                    [FileRead MANIFEST_FILE;
                     FileWrite MANIFEST_FILE (toml_format tbl');
                     Stdout (message_added package_name);
                     Stdout ("Run 'bolt-pm build' to compile." +:+ endl)])).
  { subst o. unfold run. rewrite main_install.
    pose proof (install_package_parsed package_name _ [] _ _ Hm Hp) as Hinst.
    rewrite Hw in Hinst. by rewrite (then_return _ _ _ _ Hinst). }
  rewrite Ho. cbn. split_and!; [done|done|]. intros Hround.
  unfold run. rewrite main_install.
  pose proof (install_package_parsed package_name
                (<[MANIFEST_FILE := toml_format tbl']> fs) [] _ _
                (lookup_insert_eq _ _ _) Hround) as Hinst.
  rewrite (with_dependency_idempotent _ _ _ Hw) in Hinst.
  rewrite (then_return _ _ _ _ Hinst). cbn. by rewrite insert_insert_eq.
Qed.

(** When [dependencies] is present and is not a table, [install] dereferences
    the null pointer [as_table] returned: the process does not exit normally
    and the manifest is not rewritten. *)
Lemma install_null_dereference prog package_name rest fs text tbl :
  fs !! MANIFEST_FILE = Some text →
  toml_parse text = inl tbl →
  with_dependency package_name tbl = None →
  run (prog :: "install" :: package_name :: rest) fs
  = Fault (World fs [FileRead MANIFEST_FILE]).
Proof.
  intros Hm Hp Hw. unfold run. rewrite main_install.
  pose proof (install_package_parsed package_name _ [] _ _ Hm Hp) as Hinst.
  rewrite Hw in Hinst. by rewrite (then_fault _ _ _ _ Hinst).
Qed.

End properties.

(** ** The commands on concrete inputs *)

Example mini_toml_reads_sample :
  MiniToml.parse sample_manifest = inl sample_document.
Proof. vm_compute. reflexivity. Qed.

Example build_sample_command :
  executed (trace_of (@run MiniToml.mini_toml working_compiler
                        ["bolt-pm"; "build"]
                        {[ MANIFEST_FILE := sample_manifest ]}))
  = ["bolt-compiler app.bolt -o app -lfmt -lzlib"].
Proof. vm_compute. reflexivity. Qed.

Example install_twice_sample :
  let fs1 := files_after (@run MiniToml.mini_toml no_compiler
                            ["bolt-pm"; "install"; "foo"]
                            (files_after (@run MiniToml.mini_toml no_compiler
                                            ["bolt-pm"; "new"] ∅))) in
  let fs2 := files_after (@run MiniToml.mini_toml no_compiler
                            ["bolt-pm"; "install"; "foo"] fs1) in
  fs2 = fs1
  ∧ (λ text, view_at (match MiniToml.parse text with
                      | inl tbl => tbl !! "dependencies"
                      | inr _ => None
                      end) "foo") <$> fs1 !! MANIFEST_FILE
    = Some (Some (NString "1.0.0")).
Proof. vm_compute. split; reflexivity. Qed.

(** C1, as stated, fails: with a manifest that parses and a compiler that
    cannot be run (status 32512), and again with no manifest at all, [build]
    exits with status 0. *)
Lemma build_exit_status_counterexample :
  let fs : gmap string string := {[ MANIFEST_FILE := sample_manifest ]} in
  fs !! MANIFEST_FILE = Some sample_manifest
  ∧ MiniToml.parse sample_manifest = inl sample_document
  ∧ (@run_command no_compiler (compiler_cmd sample_document) fs).1 = 32512
  ∧ exit_status (@run MiniToml.mini_toml no_compiler ["bolt-pm"; "build"] fs)
    = Some 0
  ∧ exit_status (@run MiniToml.mini_toml no_compiler ["bolt-pm"; "build"] ∅)
    = Some 0.
Proof. vm_compute. split_and!; reflexivity. Qed.

(** C2, as stated, fails: [install fmt] in an empty directory exits with
    status 0. *)
Lemma install_without_manifest_counterexample :
  (∅ : gmap string string) !! MANIFEST_FILE = None
  ∧ exit_status (@run MiniToml.mini_toml no_compiler
                   ["bolt-pm"; "install"; "fmt"] ∅)
    = Some 0.
Proof. vm_compute. split; reflexivity. Qed.

(** C3, as stated, fails: [install fmt] on a manifest that does not parse
    exits with status 0. *)
Lemma install_unparsable_manifest_counterexample :
  let fs : gmap string string := {[ MANIFEST_FILE := broken_manifest ]} in
  fs !! MANIFEST_FILE = Some broken_manifest
  ∧ MiniToml.parse broken_manifest
    = inr ("Error while parsing line 1: [package")
  ∧ exit_status (@run MiniToml.mini_toml no_compiler
                   ["bolt-pm"; "install"; "fmt"] fs)
    = Some 0.
Proof. vm_compute. split_and!; reflexivity. Qed.

(** C6: on a manifest that parses and in which [dependencies] is an integer,
    [install foo] dereferences the null pointer: the process does not exit
    normally and the manifest, left as it was, has no table mapping [foo] to
    ["1.0.0"]. *)
Theorem install_on_scalar_dependencies :
  let fs : gmap string string :=
    {[ MANIFEST_FILE := scalar_dependencies_manifest ]} in
  let o := @run MiniToml.mini_toml no_compiler ["bolt-pm"; "install"; "foo"] fs in
  MiniToml.parse scalar_dependencies_manifest
  = inl {[ "dependencies" := NInteger 1 ]}
  ∧ o = Fault (World fs [FileRead MANIFEST_FILE])
  ∧ exit_status o = None
  ∧ files_after o !! MANIFEST_FILE = Some scalar_dependencies_manifest.
Proof. vm_compute. split_and!; reflexivity. Qed.

(** ** The theorems at concrete inputs *)

Lemma install_requires_package_name_witness :
  ["bolt-pm"; "install"] !! 1%nat = Some "install"
  ∧ (length ["bolt-pm"; "install"] < 3)%nat
  ∧ exit_status (@run MiniToml.mini_toml no_compiler ["bolt-pm"; "install"]
                   {[ MANIFEST_FILE := sample_manifest ]})
    = Some 1.
Proof.
  split; [reflexivity|]. split; [simpl; lia|].
  apply (@install_requires_package_name MiniToml.mini_toml no_compiler
           ["bolt-pm"; "install"] {[ MANIFEST_FILE := sample_manifest ]});
    [reflexivity|simpl; lia].
Defined.

Lemma new_keeps_existing_manifest_witness :
  let fs : gmap string string := {[ MANIFEST_FILE := sample_manifest ]} in
  fs !! MANIFEST_FILE = Some sample_manifest
  ∧ files_after (@run MiniToml.mini_toml no_compiler ["bolt-pm"; "new"] fs)
      !! MANIFEST_FILE
    = Some sample_manifest.
Proof.
  split; [reflexivity|].
  apply (@new_keeps_existing_manifest MiniToml.mini_toml no_compiler
           "bolt-pm" [] {[ MANIFEST_FILE := sample_manifest ]}).
  reflexivity.
Defined.

Lemma new_on_existing_manifest_creates_nothing_witness :
  let fs : gmap string string := {[ MANIFEST_FILE := sample_manifest ]} in
  is_Some (fs !! MANIFEST_FILE)
  ∧ @initialize_manifest MiniToml.mini_toml (World fs [])
    = Returned () (World fs [Stdout notice_exists]).
Proof.
  split; [exists sample_manifest; reflexivity|].
  apply (@new_on_existing_manifest_creates_nothing MiniToml.mini_toml
           {[ MANIFEST_FILE := sample_manifest ]} []).
  exists sample_manifest; reflexivity.
Defined.

Lemma build_command_dependency_flags_witness :
  let fs : gmap string string := {[ MANIFEST_FILE := sample_manifest ]} in
  fs !! MANIFEST_FILE = Some sample_manifest
  ∧ MiniToml.parse sample_manifest = inl sample_document
  ∧ sample_document !! "dependencies"
    = Some (NTable {[ "fmt" := NString "1.0.0"; "zlib" := NString "1.0.0" ]})
  ∧ ∃ (cmd : string) (flags : list string),
      executed (trace_of (@run MiniToml.mini_toml working_compiler
                            ["bolt-pm"; "build"] fs))
      = [cmd]
      ∧ cmd = "bolt-compiler app.bolt -o app" +:+ String.concat EmptyString flags
      ∧ (∀ name, " -l" +:+ name ∈ flags ↔ name = "fmt" ∨ name = "zlib").
Proof.
  intros fs.
  assert (Hm : fs !! MANIFEST_FILE = Some sample_manifest) by reflexivity.
  assert (Hdeps : sample_document !! "dependencies"
                  = Some (NTable {[ "fmt" := NString "1.0.0";
                                    "zlib" := NString "1.0.0" ]}))
    by reflexivity.
  split; [exact Hm|]. split; [apply mini_toml_reads_sample|].
  split; [exact Hdeps|].
  destruct (@build_command_dependency_flags MiniToml.mini_toml working_compiler
              "bolt-pm" [] fs sample_manifest sample_document _
              Hm mini_toml_reads_sample Hdeps)
    as (cmd & flags & Hexec & Hcmd & _ & _ & Hflags & _).
  exists cmd, flags. split; [exact Hexec|]. split; [exact Hcmd|].
  intros name. rewrite Hflags. split.
  - intros [v Hv]. destruct (decide (name = "fmt")) as [|Hfmt]; [by left|].
    right. rewrite lookup_insert_ne in Hv by done.
    by apply lookup_singleton_Some in Hv as [? _].
  - intros [-> | ->]; eexists; reflexivity.
Defined.


Lemma new_then_load_round_trip_witness :
  MiniToml.parse (MiniToml.format default_manifest) = inl default_manifest
  ∧ (∅ : gmap string string) !! MANIFEST_FILE = None
  ∧ executed (trace_of
                (@run MiniToml.mini_toml working_compiler ["bolt-pm"; "build"]
                   (files_after (@run MiniToml.mini_toml working_compiler
                                   ["bolt-pm"; "new"] ∅))))
    = ["bolt-compiler main.bolt -o new-bolt-project"].
Proof.
  assert (Hround : MiniToml.parse (MiniToml.format default_manifest)
                   = inl default_manifest) by (vm_compute; reflexivity).
  assert (Hm : (∅ : gmap string string) !! MANIFEST_FILE = None)
    by reflexivity.
  split; [exact Hround|]. split; [exact Hm|].
  destruct (@new_then_load_round_trip MiniToml.mini_toml working_compiler
              "bolt-pm" [] ∅ Hround Hm)
    as (tbl & _ & _ & _ & _ & _ & Hexec & _).
  exact Hexec.
Defined.

Lemma install_without_manifest_witness :
  (∅ : gmap string string) !! MANIFEST_FILE = None
  ∧ trace_of (@run MiniToml.mini_toml no_compiler
                ["bolt-pm"; "install"; "fmt"] ∅)
    = [Stderr error_install_no_manifest].
Proof.
  split; [reflexivity|].
  apply (@install_without_manifest MiniToml.mini_toml no_compiler
           "bolt-pm" "fmt" [] ∅).
  reflexivity.
Defined.

Lemma install_unparsable_manifest_witness :
  let fs : gmap string string := {[ MANIFEST_FILE := broken_manifest ]} in
  fs !! MANIFEST_FILE = Some broken_manifest
  ∧ MiniToml.parse broken_manifest = inr "Error while parsing line 1: [package"
  ∧ files_after (@run MiniToml.mini_toml no_compiler
                   ["bolt-pm"; "install"; "fmt"] fs)
    = fs.
Proof.
  assert (Hbroken : MiniToml.parse broken_manifest
                    = inr "Error while parsing line 1: [package")
    by (vm_compute; reflexivity).
  intros fs.
  assert (Hm : fs !! MANIFEST_FILE = Some broken_manifest) by reflexivity.
  split; [exact Hm|]. split; [exact Hbroken|].
  apply (@install_unparsable_manifest MiniToml.mini_toml no_compiler
           "bolt-pm" "fmt" [] fs broken_manifest _ Hm Hbroken).
Defined.

(** * More of the commands *)

Section coverage.
Context `{Toml} `{Shell}.

(** ** Dispatch *)

Lemma print_help_run w :
  print_help w
  = Returned () (World (files w) (trace w ++ (Stdout <$> help_lines))).
Proof.
  unfold print_help, mbind, io_bind, cout, emit. cbn [files trace].
  by rewrite <- !app_assoc.
Qed.

Lemma main_no_command argv w :
  argv !! 1%nat = None → main argv w = (print_help;; mret 1) w.
Proof. destruct argv as [|prog [|command rest]]; [done|done|]. done. Qed.

Lemma main_dispatch prog command rest w :
  main (prog :: command :: rest) w
  = (if decide (command = "new") then initialize_manifest;; mret 0
     else if decide (command = "install") then
       match rest with
       | [] => cerr error_missing_name;; mret 1
       | package_name :: _ => install_package package_name;; mret 0
       end
     else if decide (command = "build") then build_project;; mret 0
     else if decide (command = "help") then print_help;; mret 0
     else cerr (error_unknown_command command);; print_help;; mret 1) w.
Proof. by destruct rest. Qed.

Lemma initialize_manifest_returns w :
  ∃ w', initialize_manifest w = Returned () w'.
Proof.
  destruct w as [fs tr]. destruct (fs !! MANIFEST_FILE) as [text|] eqn:Hm.
  - rewrite (initialize_manifest_present _ _ _ Hm). eauto.
  - rewrite (initialize_manifest_fresh _ _ Hm). cbn zeta.
    destruct (fs !! "main.bolt"); eauto.
Qed.

Lemma build_project_returns w : ∃ w', build_project w = Returned () w'.
Proof.
  destruct w as [fs tr]. destruct (fs !! MANIFEST_FILE) as [text|] eqn:Hm.
  - destruct (toml_parse text) as [tbl|err] eqn:Hp.
    + rewrite (build_project_parsed _ _ _ _ Hm Hp). eauto.
    + rewrite (build_project_unparsable _ _ _ _ Hm Hp). eauto.
  - rewrite (build_project_absent _ _ Hm). eauto.
Qed.

Lemma with_dependency_None package_name tbl :
  with_dependency package_name tbl = None
  ↔ ∃ node, tbl !! "dependencies" = Some node ∧ as_table (Some node) = None.
Proof.
  unfold with_dependency, contains.
  destruct (tbl !! "dependencies") as [node|] eqn:Hdeps.
  - rewrite bool_decide_eq_true_2 by eauto. rewrite Hdeps. split.
    + intros Hnone. exists node. split; [done|].
      by destruct node.
    + intros (node' & ? & Hnode). simplify_eq. by destruct node'.
  - rewrite bool_decide_eq_false_2 by (by intros [? ?]).
    rewrite lookup_insert_eq. cbn. split; [done|]. by intros (? & ? & _).
Qed.

(** X1: without a command ([argc < 2]) the usage text goes to the standard
    output, nothing to the error stream, no file is opened or changed, and
    the exit status is 1. *)
Theorem no_command_prints_usage argv fs :
  (length argv < 2)%nat →
  let o := run argv fs in
  exit_status o = Some 1
  ∧ stdout_of (trace_of o) = help_lines
  ∧ stderr_of (trace_of o) = []
  ∧ opened (trace_of o) = []
  ∧ files_after o = fs.
Proof.
  intros Hlen o. subst o. unfold run.
  rewrite main_no_command by (apply lookup_ge_None; lia).
  by rewrite (then_return _ _ _ _ (print_help_run _)).
Qed.

(** X2: [help], whatever follows it, prints the usage text on the standard
    output and exits with status 0 without opening or changing a file. *)
Theorem help_prints_usage prog rest fs :
  let o := run (prog :: "help" :: rest) fs in
  exit_status o = Some 0
  ∧ trace_of o = Stdout <$> help_lines
  ∧ files_after o = fs.
Proof.
  intros o. subst o. unfold run.
  change (main (prog :: "help" :: rest) (World fs []))
    with ((print_help;; mret 0) (World fs [])).
  by rewrite (then_return _ _ _ _ (print_help_run _)).
Qed.

(** X3: a command that is none of [new], [install], [build] and [help] is
    named in an error on the error stream, followed by the usage text on the
    standard output; the exit status is 1 and no file is opened or
    changed. *)
Theorem unknown_command_rejected prog command rest fs :
  command ∉ ["new"; "install"; "build"; "help"] →
  let o := run (prog :: command :: rest) fs in
  exit_status o = Some 1
  ∧ trace_of o
    = Stderr (error_unknown_command command) :: (Stdout <$> help_lines)
  ∧ files_after o = fs.
Proof.
  intros Hcmd o. subst o. unfold run. rewrite main_dispatch.
  repeat (destruct (decide _) as [->|_];
          [exfalso; apply Hcmd; rewrite !elem_of_cons; auto 6|]).
  by rewrite (bind_returned _ _ _ _ _ (eq_refl : cerr _ _ = Returned () _)),
    (then_return _ _ _ _ (print_help_run _)).
Qed.

(** X4: the exit status of every run.  It is 1 exactly for the usage errors
    (no command, [install] without a name, unknown command).  The process
    ends abnormally exactly when [install <pkg>] finds a manifest that parses
    and whose [dependencies] is present and not a table.  In every other
    case, whatever the command did or failed to do, the status is 0. *)
Theorem exit_status_of_every_run argv fs :
  let o := run argv fs in
  (exit_status o = Some 1 ↔ usage_error argv = true)
  ∧ (exit_status o = None ↔
     ∃ package_name text tbl node,
       argv !! 1%nat = Some "install" ∧ argv !! 2%nat = Some package_name
       ∧ fs !! MANIFEST_FILE = Some text ∧ toml_parse text = inl tbl
       ∧ tbl !! "dependencies" = Some node ∧ as_table (Some node) = None)
  ∧ (exit_status o = Some 0 ∨ exit_status o = Some 1 ∨ exit_status o = None).
Proof.
  intros o. subst o. unfold run, usage_error.
  assert (Hzero : ∀ (P : Prop) w, ¬ P →
            (Some 0 = Some 1 ↔ false = true)
            ∧ (exit_status (Returned 0 w) = None ↔ P)
            ∧ (exit_status (Returned 0 w) = Some 0
               ∨ exit_status (Returned 0 w) = Some 1
               ∨ exit_status (Returned 0 w) = None)).
  { intros P w HP. cbn. split_and!; [done|split; [done|by intros ?]|by left]. }
  assert (Hone : ∀ (P : Prop) w, ¬ P →
            (exit_status (Returned 1 w) = Some 1 ↔ true = true)
            ∧ (exit_status (Returned 1 w) = None ↔ P)
            ∧ (exit_status (Returned 1 w) = Some 0
               ∨ exit_status (Returned 1 w) = Some 1
               ∨ exit_status (Returned 1 w) = None)).
  { intros P w HP. cbn.
    split_and!; [done|split; [done|by intros ?]|by right; left]. }
  destruct argv as [|prog [|command rest]].
  1, 2: rewrite main_no_command by done;
    rewrite (then_return _ _ _ _ (print_help_run _));
    apply Hone; by intros (? & ? & ? & ? & ? & _).
  rewrite main_dispatch. cbn [lookup list_lookup].
  destruct (decide (command = "new")) as [->|Hnew].
  { destruct (initialize_manifest_returns (World fs [])) as [w' Hw'].
    rewrite (then_return _ _ _ _ Hw').
    apply Hzero. by intros (? & ? & ? & ? & ? & _). }
  destruct (decide (command = "install")) as [->|Hinstall].
  { destruct rest as [|package_name rest].
    { apply (Hone _ (World fs [Stderr error_missing_name])).
      by intros (? & ? & ? & ? & ? & ? & _). }
    cbn [lookup list_lookup].
    rewrite (bool_decide_eq_false_2 (Some package_name = None)) by done.
    destruct (fs !! MANIFEST_FILE) as [text|] eqn:Hm.
    2: { rewrite (then_return _ _ _ _ (install_package_absent _ _ _ Hm)).
         apply Hzero. by intros (? & ? & ? & ? & ? & ? & ? & _). }
    destruct (toml_parse text) as [tbl|err] eqn:Hp.
    2: { rewrite (then_return _ _ _ _
                    (install_package_unparsable _ _ _ _ _ Hm Hp)).
         apply Hzero. intros (? & ? & ? & ? & ? & ? & ? & ? & _).
         simplify_eq. congruence. }
    pose proof (install_package_parsed package_name _ [] _ _ Hm Hp) as Hinst.
    destruct (with_dependency package_name tbl) as [tbl'|] eqn:Hw.
    - rewrite (then_return _ _ _ _ Hinst). apply Hzero.
      intros (_ & text' & tbl0 & node & _ & _ & Hm' & Hp' & Hnode & Hnot).
      injection Hm' as <-. rewrite Hp in Hp'. injection Hp' as <-.
      assert (with_dependency package_name tbl = None) as Hnone
        by (apply with_dependency_None; eauto).
      congruence.
    - rewrite (then_fault _ _ _ _ Hinst). cbn.
      split_and!; [done| |by right; right].
      split; [intros _|done].
      apply with_dependency_None in Hw as (node & ? & ?).
      by exists package_name, text, tbl, node. }
  rewrite bool_decide_decide.
  destruct (decide (command = "build")) as [->|Hbuild].
  { destruct (build_project_returns (World fs [])) as [w' Hw'].
    rewrite (then_return _ _ _ _ Hw').
    apply Hzero. by intros (? & ? & ? & ? & ? & _). }
  destruct (decide (command = "help")) as [->|Hhelp].
  { rewrite (then_return _ _ _ _ (print_help_run _)).
    apply Hzero. by intros (? & ? & ? & ? & ? & _). }
  rewrite (bind_returned _ _ _ _ _ (eq_refl : cerr _ _ = Returned () _)),
    (then_return _ _ _ _ (print_help_run _)).
  rewrite decide_True
    by (rewrite !not_elem_of_cons; split_and!; [done..|apply not_elem_of_nil]).
  apply Hone. intros (? & ? & ? & ? & ? & _). by simplify_eq.
Qed.

(** X5: [main] looks at nothing but [argv[1]] and, for [install] only,
    [argv[2]]: the program name and every other argument make no
    difference. *)
Theorem main_reads_two_arguments argv argv' w :
  argv !! 1%nat = argv' !! 1%nat →
  (argv !! 1%nat = Some "install" → argv !! 2%nat = argv' !! 2%nat) →
  main argv w = main argv' w.
Proof.
  intros H1 H2.
  destruct argv as [|prog [|command rest]];
    destruct argv' as [|prog' [|command' rest']]; simplify_eq/=; try done.
  rewrite !main_dispatch.
  destruct (decide (command' = "new")) as [|_]; [done|].
  destruct (decide (command' = "install")) as [->|_]; [|done].
  specialize (H2 eq_refl). destruct rest, rest'; by simplify_eq/=.
Qed.

(** ** [new] *)

Lemma new_run prog rest fs :
  run (prog :: "new" :: rest) fs
  = match initialize_manifest (World fs []) with
    | Returned _ w => Returned 0 w
    | Fault w => Fault w
    end.
Proof. reflexivity. Qed.

Lemma new_files prog rest fs :
  files_after (run (prog :: "new" :: rest) fs)
  = match fs !! MANIFEST_FILE, fs !! "main.bolt" with
    | Some _, _ => fs
    | None, Some _ => <[MANIFEST_FILE := toml_format default_manifest]> fs
    | None, None =>
        <["main.bolt" := entrypoint_stub "main.bolt"]>
          (<[MANIFEST_FILE := toml_format default_manifest]> fs)
    end.
Proof.
  rewrite new_run. destruct (fs !! MANIFEST_FILE) as [text|] eqn:Hm.
  - by rewrite (initialize_manifest_present _ _ _ Hm).
  - rewrite (initialize_manifest_fresh _ _ Hm). cbn zeta.
    by destruct (fs !! "main.bolt").
Qed.

(** X6: [new] with no manifest but with an entrypoint file already there
    writes the manifest only: the entrypoint file keeps its content and the
    one write of the run is the one to the manifest. *)
Theorem new_keeps_existing_entrypoint prog rest fs source :
  fs !! MANIFEST_FILE = None →
  fs !! "main.bolt" = Some source →
  let o := run (prog :: "new" :: rest) fs in
  exit_status o = Some 0
  ∧ files_after o = <[MANIFEST_FILE := toml_format default_manifest]> fs
  ∧ files_after o !! "main.bolt" = Some source
  ∧ written (trace_of o) = [MANIFEST_FILE].
Proof.
  intros Hm Hentry o. subst o. rewrite new_run.
  rewrite (initialize_manifest_fresh _ _ Hm). cbn zeta. rewrite Hentry. cbn.
  by rewrite lookup_insert_ne.
Qed.

(** X7: [new] is idempotent on the files: a second run changes nothing and
    writes nothing, whatever the first one found. *)
Theorem new_twice prog rest fs :
  let fs1 := files_after (run (prog :: "new" :: rest) fs) in
  let o := run (prog :: "new" :: rest) fs1 in
  files_after o = fs1
  ∧ written (trace_of o) = []
  ∧ exit_status o = Some 0.
Proof.
  intros fs1 o.
  assert (∃ text, fs1 !! MANIFEST_FILE = Some text) as [text Hm1].
  { subst fs1. rewrite new_files.
    destruct (fs !! MANIFEST_FILE) as [text|] eqn:Hm; [by eauto|].
    destruct (fs !! "main.bolt").
    - rewrite lookup_insert_eq. eauto.
    - rewrite lookup_insert_ne by done. rewrite lookup_insert_eq. eauto. }
  subst o. clearbody fs1. rewrite new_run.
  by rewrite (initialize_manifest_present _ _ _ Hm1).
Qed.

(** X8: [new] never overwrites or removes a file: every file is found after
    the run with the content it had, every file found after the run that was
    not there before is the manifest or the entrypoint, and the manifest
    exists afterwards. *)
Theorem new_only_adds_files prog rest fs :
  let fs' := files_after (run (prog :: "new" :: rest) fs) in
  fs ⊆ fs'
  ∧ (∀ path, is_Some (fs' !! path) → fs !! path = None →
       path = MANIFEST_FILE ∨ path = "main.bolt")
  ∧ is_Some (fs' !! MANIFEST_FILE).
Proof.
  intros fs'. subst fs'. rewrite new_files.
  destruct (fs !! MANIFEST_FILE) as [text|] eqn:Hm.
  { split_and!; [done| |by eauto]. intros path [? ?] ?. congruence. }
  destruct (fs !! "main.bolt") as [source|] eqn:Hentry.
  - split_and!.
    + by apply insert_subseteq.
    + intros path Hsome Hnone. left.
      destruct (decide (path = MANIFEST_FILE)) as [|Hne]; [done|].
      rewrite lookup_insert_ne, Hnone in Hsome by done. by destruct Hsome.
    + rewrite lookup_insert_eq. eauto.
  - split_and!.
    + etrans; [by apply (insert_subseteq fs MANIFEST_FILE)|].
      apply insert_subseteq. by rewrite lookup_insert_ne.
    + intros path Hsome Hnone.
      destruct (decide (path = "main.bolt")) as [|Hne1]; [by right|].
      destruct (decide (path = MANIFEST_FILE)) as [|Hne2]; [by left|].
      rewrite !lookup_insert_ne, Hnone in Hsome by done. by destruct Hsome.
    + rewrite lookup_insert_ne by done. rewrite lookup_insert_eq. eauto.
Qed.

(** ** [install] *)

Lemma install_run prog package_name rest fs :
  run (prog :: "install" :: package_name :: rest) fs
  = match install_package package_name (World fs []) with
    | Returned _ w => Returned 0 w
    | Fault w => Fault w
    end.
Proof. reflexivity. Qed.

Lemma install_run_ok prog package_name rest fs text tbl tbl' :
  fs !! MANIFEST_FILE = Some text →
  toml_parse text = inl tbl →
  with_dependency package_name tbl = Some tbl' →
  run (prog :: "install" :: package_name :: rest) fs
  = Returned 0
      (World (<[MANIFEST_FILE := toml_format tbl']> fs)
             [FileRead MANIFEST_FILE;
              FileWrite MANIFEST_FILE (toml_format tbl');
              Stdout (message_added package_name);
              Stdout ("Run 'bolt-pm build' to compile." +:+ endl)]).
Proof.
  intros Hm Hp Hw. rewrite install_run.
  by rewrite (install_package_parsed _ _ _ _ _ Hm Hp), Hw.
Qed.

Lemma with_dependency_present package_name tbl deps :
  tbl !! "dependencies" = Some (NTable deps) →
  with_dependency package_name tbl
  = Some (<["dependencies" :=
              NTable (<[package_name := NString "1.0.0"]> deps)]> tbl).
Proof.
  intros Hdeps. unfold with_dependency, contains.
  rewrite bool_decide_eq_true_2 by eauto. by rewrite Hdeps.
Qed.

Lemma with_dependency_absent package_name tbl :
  tbl !! "dependencies" = None →
  with_dependency package_name tbl
  = Some (<["dependencies" := NTable {[ package_name := NString "1.0.0" ]}]>
            tbl).
Proof.
  intros Hdeps. unfold with_dependency, contains.
  rewrite bool_decide_eq_false_2 by (rewrite Hdeps; by intros [? ?]).
  rewrite lookup_insert_eq. cbn. by rewrite insert_insert_eq, insert_empty.
Qed.

(** The document written back holds [dependencies] as a table with the
    package in it. *)
Lemma with_dependency_lookup package_name tbl tbl' :
  with_dependency package_name tbl = Some tbl' →
  ∃ deps', tbl' !! "dependencies" = Some (NTable deps')
           ∧ deps' !! package_name = Some (NString "1.0.0").
Proof.
  destruct (tbl !! "dependencies") as [[| | |deps]|] eqn:Hdeps.
  1, 2, 3: intros Hw;
    assert (with_dependency package_name tbl = None) as Hnone
      by (apply with_dependency_None; eauto); congruence.
  - rewrite (with_dependency_present _ _ _ Hdeps). intros [= <-].
    eexists. by rewrite !lookup_insert_eq.
  - rewrite (with_dependency_absent _ _ Hdeps). intros [= <-].
    eexists. rewrite lookup_insert_eq. split; [done|].
    apply lookup_singleton_eq.
Qed.

Lemma with_dependency_commute a b tbl ta tb :
  with_dependency a tbl = Some ta →
  with_dependency b tbl = Some tb →
  with_dependency b ta = with_dependency a tb.
Proof.
  destruct (tbl !! "dependencies") as [[| | |deps]|] eqn:Hdeps.
  1, 2, 3: intros Hw;
    assert (with_dependency a tbl = None) as Hnone
      by (apply with_dependency_None; eauto); congruence.
  - rewrite !(with_dependency_present _ _ _ Hdeps). intros [= <-] [= <-].
    rewrite !(with_dependency_present _ _ _ (lookup_insert_eq _ _ _)).
    rewrite !insert_insert_eq. do 3 f_equal.
    destruct (decide (a = b)) as [->|Hne]; [done|]. by apply insert_insert_ne.
  - rewrite !(with_dependency_absent _ _ Hdeps). intros [= <-] [= <-].
    rewrite !(with_dependency_present _ _ _ (lookup_insert_eq _ _ _)).
    rewrite !insert_insert_eq. do 3 f_equal.
    destruct (decide (a = b)) as [->|Hne]; [done|]. by apply insert_insert_ne.
Qed.

(** X9: [install <pkg>] changes no file but the manifest, writes at most
    once, and that to the manifest, and runs no external command, on every
    file system and whatever the manifest holds. *)
Theorem install_touches_manifest_only prog package_name rest fs path :
  path ≠ MANIFEST_FILE →
  let o := run (prog :: "install" :: package_name :: rest) fs in
  files_after o !! path = fs !! path
  ∧ (written (trace_of o) = [] ∨ written (trace_of o) = [MANIFEST_FILE])
  ∧ executed (trace_of o) = [].
Proof.
  intros Hpath o. subst o. rewrite install_run.
  destruct (fs !! MANIFEST_FILE) as [text|] eqn:Hm.
  2: { rewrite (install_package_absent _ _ _ Hm). cbn. by eauto. }
  destruct (toml_parse text) as [tbl|err] eqn:Hp.
  2: { rewrite (install_package_unparsable _ _ _ _ _ Hm Hp). cbn. by eauto. }
  rewrite (install_package_parsed _ _ _ _ _ Hm Hp).
  destruct (with_dependency package_name tbl) as [tbl'|]; cbn.
  - rewrite lookup_insert_ne by done. by eauto.
  - by eauto.
Qed.

(** X10: on a manifest that parses and whose [dependencies] is a table or
    absent, [install <pkg>] writes back a document in which [dependencies]
    maps the package to ["1.0.0"], whatever version it had, keeps every other
    dependency with its version, and keeps every other entry of the
    document. *)
Theorem install_sets_version_keeps_rest prog package_name rest fs text tbl :
  fs !! MANIFEST_FILE = Some text →
  toml_parse text = inl tbl →
  tbl !! "dependencies" = None ∨ is_Some (as_table (tbl !! "dependencies")) →
  let o := run (prog :: "install" :: package_name :: rest) fs in
  ∃ tbl' deps',
    exit_status o = Some 0
    ∧ files_after o !! MANIFEST_FILE = Some (toml_format tbl')
    ∧ tbl' !! "dependencies" = Some (NTable deps')
    ∧ deps' !! package_name = Some (NString "1.0.0")
    ∧ (∀ other, other ≠ package_name →
         deps' !! other = view_at (tbl !! "dependencies") other)
    ∧ (∀ key, key ≠ "dependencies" → tbl' !! key = tbl !! key).
Proof.
  intros Hm Hp Hdeps o. subst o.
  destruct (with_dependency_table package_name tbl Hdeps)
    as (tbl' & deps' & Hw & Htbl' & Hpkg & Hothers & Hkeys).
  exists tbl', deps'. rewrite (install_run_ok _ _ _ _ _ _ _ Hm Hp Hw). cbn.
  by rewrite lookup_insert_eq.
Qed.

(** X11: two installs commute: on a manifest that parses with
    [dependencies] a table or absent, and with a library that reads back the
    document either install writes first, installing [a] then [b] leaves the
    same files as installing [b] then [a]. *)
Theorem install_commutes prog a b fs text tbl ta tb :
  fs !! MANIFEST_FILE = Some text →
  toml_parse text = inl tbl →
  with_dependency a tbl = Some ta →
  with_dependency b tbl = Some tb →
  toml_parse (toml_format ta) = inl ta →
  toml_parse (toml_format tb) = inl tb →
  files_after (run [prog; "install"; b]
                 (files_after (run [prog; "install"; a] fs)))
  = files_after (run [prog; "install"; a]
                   (files_after (run [prog; "install"; b] fs))).
Proof.
  intros Hm Hp Ha Hb Hra Hrb.
  rewrite (install_run_ok _ a _ _ _ _ _ Hm Hp Ha).
  rewrite (install_run_ok _ b _ _ _ _ _ Hm Hp Hb). cbn.
  destruct (with_dependency_lookup _ _ _ Ha) as (da & Hda & _).
  destruct (with_dependency_lookup _ _ _ Hb) as (db & Hdb & _).
  rewrite (install_run_ok _ b _ _ _ _ _ (lookup_insert_eq _ _ _) Hra
             (with_dependency_present b _ _ Hda)).
  rewrite (install_run_ok _ a _ _ _ _ _ (lookup_insert_eq _ _ _) Hrb
             (with_dependency_present a _ _ Hdb)). cbn.
  rewrite !insert_insert_eq. do 2 f_equal.
  pose proof (with_dependency_commute _ _ _ _ _ Ha Hb) as Hcomm.
  rewrite (with_dependency_present b _ _ Hda) in Hcomm.
  rewrite (with_dependency_present a _ _ Hdb) in Hcomm.
  by injection Hcomm.
Qed.

(** ** [build] *)

Lemma build_run prog rest fs :
  run (prog :: "build" :: rest) fs
  = match build_project (World fs []) with
    | Returned _ w => Returned 0 w
    | Fault w => Fault w
    end.
Proof. reflexivity. Qed.

Lemma build_run_parsed prog rest fs text tbl :
  fs !! MANIFEST_FILE = Some text →
  toml_parse text = inl tbl →
  run (prog :: "build" :: rest) fs
  = let cmd := compiler_cmd tbl in
    Returned 0
      (World (run_command cmd fs).2
             [FileRead MANIFEST_FILE;
              Stdout (message_building tbl);
              Stdout ("Compiler command: " +:+ cmd +:+ endl);
              Exec cmd;
              if decide ((run_command cmd fs).1 = 0)
              then Stdout (message_success tbl)
              else Stderr message_failed]).
Proof.
  intros Hm Hp. rewrite build_run.
  by rewrite (build_project_parsed _ _ _ _ Hm Hp).
Qed.

Lemma compiler_cmd_occurs tbl deps key :
  tbl !! "dependencies" = Some (NTable deps) →
  is_Some (deps !! key) →
  occurs_in (" -l" +:+ key) (compiler_cmd tbl).
Proof.
  intros Hdeps Hkey. unfold compiler_cmd. cbn zeta. rewrite Hdeps.
  cbn [as_table]. rewrite dep_flags_of_concat.
  apply occurs_in_app_r, concat_occurs.
  apply (list_elem_of_fmap_2 (λ key, " -l" +:+ key)).
  by apply table_items_keys.
Qed.

(** X12: [build] itself writes no file and opens none but the manifest, which
    it reads at most once; it runs at most one external command, and the
    files after it are the files before it as changed by that command. *)
Theorem build_changes_files_through_compiler_only prog rest fs :
  let o := run (prog :: "build" :: rest) fs in
  written (trace_of o) = []
  ∧ (opened (trace_of o) = [] ∨ opened (trace_of o) = [MANIFEST_FILE])
  ∧ (length (executed (trace_of o)) ≤ 1)%nat
  ∧ files_after o = shell_effect (executed (trace_of o)) fs.
Proof.
  intros o. subst o.
  destruct (fs !! MANIFEST_FILE) as [text|] eqn:Hm.
  2: { rewrite build_run, (build_project_absent _ _ Hm). cbn.
       split_and!; auto. }
  destruct (toml_parse text) as [tbl|err] eqn:Hp.
  2: { rewrite build_run, (build_project_unparsable _ _ _ _ Hm Hp). cbn.
       split_and!; auto. }
  rewrite (build_run_parsed _ _ _ _ _ Hm Hp). cbn.
  destruct (decide _); cbn; split_and!; auto.
Qed.

(** X13: with a manifest that parses and holds neither a [package] table nor
    a [dependencies] table (an empty manifest, say), [build] falls back on
    the entrypoint [main.bolt] and the output name [my-app] and passes no
    dependency flag. *)
Theorem build_defaults prog rest fs text tbl :
  fs !! MANIFEST_FILE = Some text →
  toml_parse text = inl tbl →
  as_table (tbl !! "package") = None →
  as_table (tbl !! "dependencies") = None →
  executed (trace_of (run (prog :: "build" :: rest) fs))
  = ["bolt-compiler main.bolt -o my-app"].
Proof.
  intros Hm Hp Hpackage Hdeps.
  rewrite (build_run_parsed _ _ _ _ _ Hm Hp). cbn.
  assert (compiler_cmd tbl = "bolt-compiler main.bolt -o my-app") as ->.
  { unfold compiler_cmd. rewrite Hdeps.
    by destruct (tbl !! "package") as [[]|]. }
  by destruct (decide _).
Qed.

(** X14: when the entrypoint, the output name and the dependency names hold
    no space, the command line [build] runs is made of exactly these words,
    separated by single spaces: the compiler, the entrypoint, [-o], the
    output name, and one [-l<key>] for each key of [dependencies]. *)
Theorem build_command_words prog rest fs text tbl deps :
  fs !! MANIFEST_FILE = Some text →
  toml_parse text = inl tbl →
  tbl !! "dependencies" = Some (NTable deps) →
  let entrypoint :=
    value_or (view_at (tbl !! "package") "entrypoint") "main.bolt" in
  let output_name := value_or (view_at (tbl !! "package") "name") "my-app" in
  space_free entrypoint = true →
  space_free output_name = true →
  (∀ key, is_Some (deps !! key) → space_free key = true) →
  ∃ cmd keys,
    executed (trace_of (run (prog :: "build" :: rest) fs)) = [cmd]
    ∧ split_on " " cmd
      = COMPILER_NAME :: entrypoint :: "-o" :: output_name ::
          ((λ key, "-l" +:+ key) <$> keys)
    ∧ NoDup keys
    ∧ length keys = size deps
    ∧ (∀ key, key ∈ keys ↔ is_Some (deps !! key)).
Proof.
  intros Hm Hp Hdeps entrypoint output_name Hentry Hout Hkeys.
  exists (compiler_cmd tbl), (table_items deps).*1.
  rewrite (build_run_parsed _ _ _ _ _ Hm Hp). cbn. split_and!.
  - by destruct (decide _).
  - by apply compiler_cmd_words.
  - apply table_items_NoDup.
  - unfold table_items.
    by rewrite length_fmap, merge_sort_Permutation, length_map_to_list.
  - apply table_items_keys.
Qed.

(** X15: what [install] adds, [build] passes on: after [install <pkg>] on a
    manifest that parses with [dependencies] a table or absent, and with a
    library that reads back the document written, the command line of
    [build] holds [ -l<pkg>], and still holds the flag of every dependency
    the manifest had. *)
Theorem install_then_build prog package_name fs text tbl tbl' :
  fs !! MANIFEST_FILE = Some text →
  toml_parse text = inl tbl →
  with_dependency package_name tbl = Some tbl' →
  toml_parse (toml_format tbl') = inl tbl' →
  let fs1 := files_after (run [prog; "install"; package_name] fs) in
  ∃ cmd,
    executed (trace_of (run [prog; "build"] fs1)) = [cmd]
    ∧ occurs_in (" -l" +:+ package_name) cmd
    ∧ (∀ key, is_Some (view_at (tbl !! "dependencies") key) →
         occurs_in (" -l" +:+ key) cmd).
Proof.
  intros Hm Hp Hw Hround fs1. subst fs1.
  rewrite (install_run_ok _ _ _ _ _ _ _ Hm Hp Hw). cbn.
  rewrite (build_run_parsed _ _ _ _ _ (lookup_insert_eq _ _ _) Hround). cbn.
  exists (compiler_cmd tbl').
  assert (tbl !! "dependencies" = None
          ∨ is_Some (as_table (tbl !! "dependencies"))) as Hdeps.
  { destruct (tbl !! "dependencies") as [[| | |deps]|] eqn:Hdeps;
      [| | |by right; eauto|by left];
      assert (with_dependency package_name tbl = None) as Hnone
        by (apply with_dependency_None; eauto); congruence. }
  destruct (with_dependency_table package_name tbl Hdeps)
    as (tbl2 & deps' & Hw2 & Htbl' & Hpkg & Hothers & _).
  assert (tbl2 = tbl') as -> by congruence.
  split_and!.
  - by destruct (decide _).
  - by apply (compiler_cmd_occurs _ _ _ Htbl').
  - intros key Hkey. apply (compiler_cmd_occurs _ _ _ Htbl').
    destruct (decide (key = package_name)) as [->|Hne]; [by eauto|].
    by rewrite Hothers.
Qed.

(** X16: [build] shows what it runs: every command handed to the shell was
    printed on the standard output, as [Compiler command: <cmd>], just before
    it was run. *)
Theorem build_prints_command_before_running prog rest fs cmd :
  cmd ∈ executed (trace_of (run (prog :: "build" :: rest) fs)) →
  ∃ before after,
    trace_of (run (prog :: "build" :: rest) fs)
    = (before ++ Stdout ("Compiler command: " +:+ cmd +:+ endl)
               :: Exec cmd :: after)%list.
Proof.
  destruct (fs !! MANIFEST_FILE) as [text|] eqn:Hm.
  2: { rewrite build_run, (build_project_absent _ _ Hm). cbn.
       by intros ?%elem_of_nil. }
  destruct (toml_parse text) as [tbl|err] eqn:Hp.
  2: { rewrite build_run, (build_project_unparsable _ _ _ _ Hm Hp). cbn.
       by intros ?%elem_of_nil. }
  rewrite (build_run_parsed _ _ _ _ _ Hm Hp). cbn.
  intros Hcmd.
  assert (cmd = compiler_cmd tbl) as ->.
  { destruct (decide _); cbn in Hcmd; by apply list_elem_of_singleton in Hcmd. }
  by eexists [_; _], [_].
Qed.

(** ** The [-l] words of the command line *)


End coverage.

(** ** These theorems at concrete inputs *)

Lemma no_command_prints_usage_witness :
  (length ["bolt-pm"] < 2)%nat
  ∧ exit_status (@run MiniToml.mini_toml no_compiler ["bolt-pm"] ∅) = Some 1.
Proof.
  split; [simpl; lia|].
  apply (@no_command_prints_usage MiniToml.mini_toml no_compiler ["bolt-pm"] ∅).
  simpl; lia.
Defined.

Lemma unknown_command_rejected_witness :
  ("init" ∉ ["new"; "install"; "build"; "help"])
  ∧ exit_status (@run MiniToml.mini_toml no_compiler ["bolt-pm"; "init"] ∅)
    = Some 1.
Proof.
  assert (Hcmd : "init" ∉ ["new"; "install"; "build"; "help"]).
  { intros Hin.
    repeat (apply elem_of_cons in Hin as [Hin|Hin]; [discriminate Hin|]).
    by apply elem_of_nil in Hin. }
  split; [exact Hcmd|].
  apply (@unknown_command_rejected MiniToml.mini_toml no_compiler
           "bolt-pm" "init" [] ∅ Hcmd).
Defined.

Lemma main_reads_two_arguments_witness :
  let argv := ["bolt-pm"; "install"; "fmt"; "--force"] in
  let argv' := ["/usr/local/bin/bolt-pm"; "install"; "fmt"] in
  argv !! 1%nat = argv' !! 1%nat
  ∧ (argv !! 1%nat = Some "install" → argv !! 2%nat = argv' !! 2%nat)
  ∧ @main MiniToml.mini_toml no_compiler argv (World ∅ [])
    = @main MiniToml.mini_toml no_compiler argv' (World ∅ []).
Proof.
  intros argv argv'.
  split; [reflexivity|]. split; [intros _; reflexivity|].
  apply (@main_reads_two_arguments MiniToml.mini_toml no_compiler argv argv');
    [reflexivity|intros _; reflexivity].
Defined.

Lemma new_keeps_existing_entrypoint_witness :
  let fs : gmap string string := {[ "main.bolt" := "int main() { return 7; }" ]} in
  fs !! MANIFEST_FILE = None
  ∧ fs !! "main.bolt" = Some "int main() { return 7; }"
  ∧ written (trace_of (@run MiniToml.mini_toml no_compiler ["bolt-pm"; "new"] fs))
    = [MANIFEST_FILE].
Proof.
  intros fs.
  assert (Hm : fs !! MANIFEST_FILE = None) by reflexivity.
  assert (Hentry : fs !! "main.bolt" = Some "int main() { return 7; }")
    by reflexivity.
  split; [exact Hm|]. split; [exact Hentry|].
  apply (@new_keeps_existing_entrypoint MiniToml.mini_toml no_compiler
           "bolt-pm" [] fs _ Hm Hentry).
Defined.

Lemma install_touches_manifest_only_witness :
  let fs : gmap string string :=
    {[ MANIFEST_FILE := sample_manifest; "main.bolt" := "int main() {}" ]} in
  "main.bolt" ≠ MANIFEST_FILE
  ∧ files_after (@run MiniToml.mini_toml no_compiler
                   ["bolt-pm"; "install"; "boost"] fs) !! "main.bolt"
    = fs !! "main.bolt".
Proof.
  intros fs.
  assert (Hpath : "main.bolt" ≠ MANIFEST_FILE) by discriminate.
  split; [exact Hpath|].
  apply (@install_touches_manifest_only MiniToml.mini_toml no_compiler
           "bolt-pm" "boost" [] fs "main.bolt" Hpath).
Defined.

Lemma install_sets_version_keeps_rest_witness :
  let fs : gmap string string := {[ MANIFEST_FILE := sample_manifest ]} in
  fs !! MANIFEST_FILE = Some sample_manifest
  ∧ MiniToml.parse sample_manifest = inl sample_document
  ∧ is_Some (as_table (sample_document !! "dependencies"))
  ∧ ∃ tbl' deps',
      files_after (@run MiniToml.mini_toml no_compiler
                     ["bolt-pm"; "install"; "boost"] fs) !! MANIFEST_FILE
      = Some (MiniToml.format tbl')
      ∧ tbl' !! "dependencies" = Some (NTable deps')
      ∧ deps' !! "boost" = Some (NString "1.0.0")
      ∧ deps' !! "zlib" = Some (NString "1.0.0").
Proof.
  intros fs.
  assert (Hm : fs !! MANIFEST_FILE = Some sample_manifest) by reflexivity.
  assert (Hdeps : is_Some (as_table (sample_document !! "dependencies")))
    by (eexists; reflexivity).
  split; [exact Hm|]. split; [exact mini_toml_reads_sample|].
  split; [exact Hdeps|].
  destruct (@install_sets_version_keeps_rest MiniToml.mini_toml no_compiler
              "bolt-pm" "boost" [] fs sample_manifest sample_document
              Hm mini_toml_reads_sample (or_intror Hdeps))
    as (tbl' & deps' & _ & Hfile & Htbl' & Hpkg & Hothers & _).
  exists tbl', deps'. split; [exact Hfile|]. split; [exact Htbl'|].
  split; [exact Hpkg|]. rewrite Hothers by discriminate. reflexivity.
Defined.

Lemma install_commutes_witness :
  let fs : gmap string string := {[ MANIFEST_FILE := sample_manifest ]} in
  ∃ ta tb,
    fs !! MANIFEST_FILE = Some sample_manifest
    ∧ MiniToml.parse sample_manifest = inl sample_document
    ∧ with_dependency "boost" sample_document = Some ta
    ∧ with_dependency "curl" sample_document = Some tb
    ∧ MiniToml.parse (MiniToml.format ta) = inl ta
    ∧ MiniToml.parse (MiniToml.format tb) = inl tb
    ∧ files_after (@run MiniToml.mini_toml no_compiler
                     ["bolt-pm"; "install"; "curl"]
                     (files_after (@run MiniToml.mini_toml no_compiler
                                     ["bolt-pm"; "install"; "boost"] fs)))
      = files_after (@run MiniToml.mini_toml no_compiler
                       ["bolt-pm"; "install"; "boost"]
                       (files_after (@run MiniToml.mini_toml no_compiler
                                       ["bolt-pm"; "install"; "curl"] fs))).
Proof.
  intros fs.
  destruct (with_dependency "boost" sample_document) as [ta|] eqn:Ha;
    [|vm_compute in Ha; discriminate Ha].
  destruct (with_dependency "curl" sample_document) as [tb|] eqn:Hb;
    [|vm_compute in Hb; discriminate Hb].
  assert (Hm : fs !! MANIFEST_FILE = Some sample_manifest) by reflexivity.
  assert (Hra : MiniToml.parse (MiniToml.format ta) = inl ta).
  { vm_compute in Ha. injection Ha as <-. vm_compute. reflexivity. }
  assert (Hrb : MiniToml.parse (MiniToml.format tb) = inl tb).
  { vm_compute in Hb. injection Hb as <-. vm_compute. reflexivity. }
  exists ta, tb. split; [exact Hm|]. split; [exact mini_toml_reads_sample|].
  split; [reflexivity|]. split; [reflexivity|].
  split; [exact Hra|]. split; [exact Hrb|].
  apply (@install_commutes MiniToml.mini_toml no_compiler "bolt-pm"
           "boost" "curl" fs sample_manifest sample_document ta tb
           Hm mini_toml_reads_sample Ha Hb Hra Hrb).
Defined.

Lemma build_defaults_witness :
  let fs : gmap string string := {[ MANIFEST_FILE := empty_manifest ]} in
  fs !! MANIFEST_FILE = Some empty_manifest
  ∧ MiniToml.parse empty_manifest = inl ∅
  ∧ as_table ((∅ : table) !! "package") = None
  ∧ as_table ((∅ : table) !! "dependencies") = None
  ∧ executed (trace_of (@run MiniToml.mini_toml working_compiler
                          ["bolt-pm"; "build"] fs))
    = ["bolt-compiler main.bolt -o my-app"].
Proof.
  intros fs.
  assert (Hm : fs !! MANIFEST_FILE = Some empty_manifest) by reflexivity.
  assert (Hp : MiniToml.parse empty_manifest = inl ∅)
    by (vm_compute; reflexivity).
  assert (Hpackage : as_table ((∅ : table) !! "package") = None)
    by reflexivity.
  assert (Hdeps : as_table ((∅ : table) !! "dependencies") = None)
    by reflexivity.
  split; [exact Hm|]. split; [exact Hp|]. split; [exact Hpackage|].
  split; [exact Hdeps|].
  apply (@build_defaults MiniToml.mini_toml working_compiler "bolt-pm" [] fs
           empty_manifest ∅ Hm Hp Hpackage Hdeps).
Defined.

Lemma build_command_words_witness :
  let fs : gmap string string := {[ MANIFEST_FILE := sample_manifest ]} in
  let deps : table :=
    {[ "fmt" := NString "1.0.0"; "zlib" := NString "1.0.0" ]} in
  fs !! MANIFEST_FILE = Some sample_manifest
  ∧ MiniToml.parse sample_manifest = inl sample_document
  ∧ sample_document !! "dependencies" = Some (NTable deps)
  ∧ space_free "app.bolt" = true
  ∧ space_free "app" = true
  ∧ (∀ key, is_Some (deps !! key) → space_free key = true)
  ∧ ∃ cmd keys,
      executed (trace_of (@run MiniToml.mini_toml working_compiler
                            ["bolt-pm"; "build"] fs))
      = [cmd]
      ∧ split_on " " cmd
        = "bolt-compiler" :: "app.bolt" :: "-o" :: "app" ::
            ((λ key, "-l" +:+ key) <$> keys)
      ∧ length keys = 2%nat.
Proof.
  intros fs deps.
  assert (Hm : fs !! MANIFEST_FILE = Some sample_manifest) by reflexivity.
  assert (Hdeps : sample_document !! "dependencies" = Some (NTable deps))
    by reflexivity.
  assert (Hkeys : ∀ key, is_Some (deps !! key) → space_free key = true).
  { intros key [v Hv]. destruct (decide (key = "fmt")) as [->|Hfmt];
      [reflexivity|].
    unfold deps in Hv. rewrite lookup_insert_ne in Hv by done.
    apply lookup_singleton_Some in Hv as [<- _]. reflexivity. }
  split; [exact Hm|]. split; [exact mini_toml_reads_sample|].
  split; [exact Hdeps|]. split; [reflexivity|]. split; [reflexivity|].
  split; [exact Hkeys|].
  destruct (@build_command_words MiniToml.mini_toml working_compiler
              "bolt-pm" [] fs sample_manifest sample_document deps
              Hm mini_toml_reads_sample Hdeps eq_refl eq_refl Hkeys)
    as (cmd & keys & Hexec & Hwords & _ & Hlen & _).
  exists cmd, keys. split; [exact Hexec|]. split; [exact Hwords|].
  rewrite Hlen. reflexivity.
Defined.

Lemma install_then_build_witness :
  let fs : gmap string string := {[ MANIFEST_FILE := sample_manifest ]} in
  ∃ tbl',
    fs !! MANIFEST_FILE = Some sample_manifest
    ∧ MiniToml.parse sample_manifest = inl sample_document
    ∧ with_dependency "boost" sample_document = Some tbl'
    ∧ MiniToml.parse (MiniToml.format tbl') = inl tbl'
    ∧ ∃ cmd,
        executed (trace_of
                    (@run MiniToml.mini_toml working_compiler
                       ["bolt-pm"; "build"]
                       (files_after (@run MiniToml.mini_toml working_compiler
                                       ["bolt-pm"; "install"; "boost"] fs))))
        = [cmd]
        ∧ occurs_in " -lboost" cmd.
Proof.
  intros fs.
  destruct (with_dependency "boost" sample_document) as [tbl'|] eqn:Hw;
    [|vm_compute in Hw; discriminate Hw].
  assert (Hm : fs !! MANIFEST_FILE = Some sample_manifest) by reflexivity.
  assert (Hround : MiniToml.parse (MiniToml.format tbl') = inl tbl').
  { vm_compute in Hw. injection Hw as <-. vm_compute. reflexivity. }
  exists tbl'. split; [exact Hm|]. split; [exact mini_toml_reads_sample|].
  split; [reflexivity|]. split; [exact Hround|].
  destruct (@install_then_build MiniToml.mini_toml working_compiler
              "bolt-pm" "boost" fs sample_manifest sample_document tbl'
              Hm mini_toml_reads_sample Hw Hround)
    as (cmd & Hexec & Hocc & _).
  exists cmd. split; [exact Hexec|exact Hocc].
Defined.

Lemma build_prints_command_before_running_witness :
  let fs : gmap string string := {[ MANIFEST_FILE := sample_manifest ]} in
  let cmd := "bolt-compiler app.bolt -o app -lfmt -lzlib" in
  cmd ∈ executed (trace_of (@run MiniToml.mini_toml working_compiler
                              ["bolt-pm"; "build"] fs))
  ∧ ∃ before after,
      trace_of (@run MiniToml.mini_toml working_compiler
                  ["bolt-pm"; "build"] fs)
      = (before ++ Stdout ("Compiler command: " +:+ cmd +:+ endl)
                 :: Exec cmd :: after)%list.
Proof.
  intros fs cmd.
  assert (Hcmd : cmd ∈ executed (trace_of (@run MiniToml.mini_toml
                                             working_compiler
                                             ["bolt-pm"; "build"] fs))).
  { unfold fs. rewrite build_sample_command.
    apply list_elem_of_singleton. reflexivity. }
  split; [exact Hcmd|].
  apply (@build_prints_command_before_running MiniToml.mini_toml
           working_compiler "bolt-pm" [] fs cmd Hcmd).
Defined.

(** ** The [-l] words on concrete manifests *)


